(** * The ElasticSearch notifier of botkube (pkg/notify/elasticsearch.go)

    A shallow embedding of the notifier: the constructor [NewElasticSearch],
    the two methods [SendEvent] and [SendMessage], and the small parts of
    the Go runtime and of the client library they rest on (the clock and
    [Time.Format], the logger, the options of [elastic.NewClient], the
    requests sent through the client). *)

From Stdlib Require Import ZArith List String Ascii Bool Lia DecimalString.
Import ListNotations.
Local Open Scope string_scope.
Local Open Scope Z_scope.

(** ** Go's [time] package: the part [Format] needs *)

Module GoTime.

(** A clock reading, as [Time.Format] sees it: the civil date. *)
Record Time := mkTime { Year : Z; Month : Z; Day : Z }.

(** The layout chunks the notifier's layout is made of. *)
Inductive chunk :=
| stdLongYear            (* "2006" *)
| stdZeroMonth           (* "01" *)
| stdZeroDay             (* "02" *)
| literal (c : ascii).

(** [nextStdChunk], iterated over the layout, for the chunks above. *)
Fixpoint chunks (layout : string) : list chunk :=
  match layout with
  | String "2" (String "0" (String "0" (String "6" rest))) =>
      stdLongYear :: chunks rest
  | String "0" (String "1" rest) => stdZeroMonth :: chunks rest
  | String "0" (String "2" rest) => stdZeroDay :: chunks rest
  | String c rest => literal c :: chunks rest
  | EmptyString => []
  end.

Definition itoa (n : Z) : string :=
  NilZero.string_of_uint (N.to_uint (Z.to_N n)).

Fixpoint zeros (n : nat) : string :=
  match n with
  | O => ""
  | S k => String "0" (zeros k)
  end.

(** [appendInt]: the decimal form of [x], zero-padded to [width]. *)
Definition appendInt (x : Z) (width : nat) : string :=
  let digits := itoa (Z.abs x) in
  (if x <? 0 then "-" else "")
    ++ zeros (width - String.length digits) ++ digits.

Definition appendChunk (t : Time) (c : chunk) : string :=
  match c with
  | stdLongYear => appendInt (Year t) 4
  | stdZeroMonth => appendInt (Month t) 2
  | stdZeroDay => appendInt (Day t) 2
  | literal a => String a EmptyString
  end.

Definition Format (t : Time) (layout : string) : string :=
  String.concat "" (map (appendChunk t) (chunks layout)).

End GoTime.
Import GoTime.

(** indexSuffixFormat is the date format that would be appended to the
    index name *)
Definition indexSuffixFormat : string := "02-01-2006".

(** awsService for the AWS client to authenticate against *)
Definition awsService : string := "es".

(** ** Configuration (pkg/config) *)

Module config.

(** Modelled from the spec: the configuration type of pkg/config is not
    among the sources; these are the settings the constructor reads
    (server address, credentials or signing mode with region and optional
    role identifier, target base name, document-kind label, shard and
    replica counts, cluster label), under the names the constructor uses. *)
Record AWSSigning := mkAWSSigning {
  Enabled : bool;
  AWSRegion : string;
  RoleArn : string }.

Record Index := mkIndex {
  Name : string;
  Type_ : string;
  Shards : Z;
  Replicas : Z }.

Record ElasticSearch := mkElasticSearch {
  Server : string;
  Username : string;
  Password : string;
  AWSSigning_ : AWSSigning;
  Index_ : Index }.

Record Settings := mkSettings { ClusterName : string }.

Record Config := mkConfig {
  CommunicationsConfig_ElasticSearch : ElasticSearch;
  Settings_ : Settings }.

End config.

(** ** JSON values, as far as the create-index body needs them *)

#[warnings="-register-all"]
Inductive JSON :=
| JNumber (n : Z)
| JObject (members : list (string * JSON)).

(** The body of the create-index request. *)
Module body.

Record index := mkindex {
  Shards : Z;      (* json:"number_of_shards" *)
  Replicas : Z }.  (* json:"number_of_replicas" *)

Record settings := mksettings { Index : index }.       (* json:"index" *)

Record mapping := mkmapping { Settings : settings }.   (* json:"settings" *)

Definition index_json (i : index) : JSON :=
  JObject [("number_of_shards", JNumber (Shards i));
           ("number_of_replicas", JNumber (Replicas i))].

Definition settings_json (s : settings) : JSON :=
  JObject [("index", index_json (Index s))].

(** What [BodyJson(mapping)] serialises to, field by field in the order
    of declaration, under the names of the json tags. *)
Definition mapping_json (m : mapping) : JSON :=
  JObject [("settings", settings_json (Settings m))].

End body.

(** The logger of pkg/log: the calls made, in order. *)
Inductive Level := DebugLevel | ErrorLevel.

Section Notifier.

(** Go's [error] values and their [Error()] text. *)
Variable error : Type.
Variable Error : error -> string.

(** ** The client library (olivere/elastic) *)

(** [*http.Client]: the transport requests go through. *)
Variable HttpClient : Type.

(** The settings of an [elastic.Client] the constructor's options touch. *)
Record Client := mkClient {
  urls : list string;
  scheme : string;
  httpClient : HttpClient;
  basicAuthUsername : string;
  basicAuthPassword : string;
  snifferEnabled : bool;
  healthcheckEnabled : bool;
  gzipEnabled : bool }.

Inductive ClientOptionFunc :=
| SetURL (us : list string)
| SetScheme (s : string)
| SetHttpClient (h : HttpClient)
| SetBasicAuth (username password : string)
| SetSniff (enabled : bool)
| SetHealthcheck (enabled : bool)
| SetGzip (enabled : bool).

(** Each option sets its own settings and leaves the others. *)
Definition applyOption (c : Client) (o : ClientOptionFunc) : Client :=
  match o with
  | SetURL us =>
      mkClient us (scheme c) (httpClient c) (basicAuthUsername c)
        (basicAuthPassword c) (snifferEnabled c) (healthcheckEnabled c)
        (gzipEnabled c)
  | SetScheme s =>
      mkClient (urls c) s (httpClient c) (basicAuthUsername c)
        (basicAuthPassword c) (snifferEnabled c) (healthcheckEnabled c)
        (gzipEnabled c)
  | SetHttpClient h =>
      mkClient (urls c) (scheme c) h (basicAuthUsername c)
        (basicAuthPassword c) (snifferEnabled c) (healthcheckEnabled c)
        (gzipEnabled c)
  | SetBasicAuth u p =>
      mkClient (urls c) (scheme c) (httpClient c) u p
        (snifferEnabled c) (healthcheckEnabled c) (gzipEnabled c)
  | SetSniff b =>
      mkClient (urls c) (scheme c) (httpClient c) (basicAuthUsername c)
        (basicAuthPassword c) b (healthcheckEnabled c) (gzipEnabled c)
  | SetHealthcheck b =>
      mkClient (urls c) (scheme c) (httpClient c) (basicAuthUsername c)
        (basicAuthPassword c) (snifferEnabled c) b (gzipEnabled c)
  | SetGzip b =>
      mkClient (urls c) (scheme c) (httpClient c) (basicAuthUsername c)
        (basicAuthPassword c) (snifferEnabled c) (healthcheckEnabled c) b
  end.

(** The library's defaults, and the checks [elastic.NewClient] makes once
    the options are applied (a malformed URL, an unreachable node). *)
Variable defaults : Client.
Variable startup : Client -> option error.

(** [elastic.NewClient(options...)]: the options are applied in order. *)
Definition NewClient (options : list ClientOptionFunc) : error + Client :=
  let c := fold_left applyOption options defaults in
  match startup c with
  | Some err => inl err
  | None => inr c
  end.

(** ** The AWS SDK, as far as the constructor uses it *)

Variable Session : Type.
Variable NewSession : error + Session.

Inductive Credentials :=
| stscreds_NewCredentials (sess : Session) (roleArn : string)
| ec2rolecreds_NewCredentials (sess : Session).

Inductive Signer := v4_NewSigner (creds : Credentials).

(** [aws_signing_client.New(signer, nil, service, region)]: an HTTP client
    that signs every request, or an error. *)
Variable aws_signing_client_New :
  Signer -> string -> string -> error + HttpClient.

(** ** The notifier *)

(** ElasticSearch contains auth cred and index setting *)
Record ElasticSearch := mkElasticSearch {
  ELSClient : Client;
  Server : string;
  Index : string;
  Shards : Z;
  Replicas : Z;
  Type_ : string;
  ClusterName : string }.

(** What a call of the constructor comes to: a notifier, an error, or the
    panic of [session.Must]. *)
Inductive Constructed :=
| Built (n : ElasticSearch)
| Refused (err : error)
| Panicked (err : error).

(** NewElasticSearch returns new ElasticSearch object *)
Definition NewElasticSearch (c : config.Config) : Constructed :=
  let es := config.CommunicationsConfig_ElasticSearch c in
  let finish (elsClient : Client) :=
    Built {| ELSClient := elsClient;
             Server := "";
             Index := config.Name (config.Index_ es);
             Type_ := config.Type_ (config.Index_ es);
             Shards := config.Shards (config.Index_ es);
             Replicas := config.Replicas (config.Index_ es);
             ClusterName := config.ClusterName (config.Settings_ c) |} in
  if config.Enabled (config.AWSSigning_ es) then
    (* Get credentials from environment variables and create the AWS
       Signature Version 4 signer *)
    match NewSession with
    | inl err => Panicked err
    | inr sess =>
        let creds :=
          if negb (config.RoleArn (config.AWSSigning_ es) =? "")%string
          then stscreds_NewCredentials sess
                 (config.RoleArn (config.AWSSigning_ es))
          else ec2rolecreds_NewCredentials sess in
        let signer := v4_NewSigner creds in
        match aws_signing_client_New signer awsService
                (config.AWSRegion (config.AWSSigning_ es)) with
        | inl err => Refused err
        | inr awsClient =>
            match NewClient [SetURL [config.Server es];
                             SetScheme "https";
                             SetHttpClient awsClient;
                             SetSniff false;
                             SetHealthcheck false;
                             SetGzip false] with
            | inl err => Refused err
            | inr elsClient => finish elsClient
            end
        end
    end
  else
    (* create elasticsearch client *)
    match NewClient [SetURL [config.Server es];
                     SetBasicAuth (config.Username es) (config.Password es);
                     SetSniff false;
                     SetHealthcheck false;
                     SetGzip true] with
    | inl err => Refused err
    | inr elsClient => finish elsClient
    end.

(** ** What [SendEvent] works on *)

(** Modelled from the spec: events.Event of pkg/events is not among the
    sources; the notifier treats the event as opaque beyond one field, the
    cluster label, which it overwrites. [EventFields] stands for all the
    other fields. *)
Variable EventFields : Type.

Record Event := mkEvent {
  Cluster : string;
  Fields : EventFields }.

(** [fmt.Sprintf] with the verb [%+v] on an event. *)
Variable Sprintf_v : Event -> string.

(** The requests the notifier builds on its client, with what it puts in
    them: the index name, the document type, the body handed to
    [BodyJson]. *)
Inductive Request :=
| IndexExists (name : string)
| CreateIndex (name : string) (bodyJson : body.mapping)
| IndexDoc (name : string) (typ : string) (bodyJson : Event)
| Flush (name : string).

(** What [Do(ctx)] gives back: an error, or a result, of which the notifier
    reads only the answer of the existence check. *)
Inductive Reply :=
| Done (exists_ : bool)
| Failed (err : error).

(** The store behind the client: its state, and how it serves a request
    sent through a client. *)
Variable Backend : Type.
Variable Do : Client -> Request -> Backend -> Reply * Backend.

(** The world a call runs in: the clock ([clock w n] is what the [n]-th
    call of [time.Now] returns, [reads] counts the calls made), the store,
    the requests sent with their replies, oldest first, and the log. *)
Record World := mkWorld {
  clock : nat -> Time;
  reads : nat;
  backend : Backend;
  wire : list (Request * Reply);
  logs : list (Level * string) }.

(** The memory of a call: the object the receiver [e] points to, the
    parameter [event] (the callee's own copy), and the world. *)
Record State := mkState {
  self : ElasticSearch;
  event : Event;
  world : World }.

(** A statement either goes on with a value or returns from the function. *)
Inductive Step (A : Type) :=
| Next (a : A)
| Return (err : option error).
Arguments Next {A} a.
Arguments Return {A} err.

Definition M (A : Type) : Type := State -> Step A * State.

Definition ret {A} (a : A) : M A := fun s => (Next a, s).

Definition bind {A B} (m : M A) (k : A -> M B) : M B :=
  fun s =>
    match m s with
    | (Next a, s') => k a s'
    | (Return err, s') => (Return err, s')
    end.

Definition return_ {A} (err : option error) : M A :=
  fun s => (Return err, s).

Notation "x <- m ;; k" := (bind m (fun x => k))
  (at level 61, m at next level, right associativity).
Notation "m ;; k" := (bind m (fun _ => k))
  (at level 61, right associativity).

(** Reading a field of [*e], reading and writing the parameter. *)
Definition load_e {A} (field : ElasticSearch -> A) : M A :=
  fun s => (Next (field (self s)), s).

Definition load_event : M Event :=
  fun s => (Next (event s), s).

Definition store_event_Cluster (v : string) : M unit :=
  fun s =>
    (Next tt,
     mkState (self s) (mkEvent v (Fields (event s))) (world s)).

Definition on_world {A} (f : World -> A * World) : M A :=
  fun s => let (a, w) := f (world s) in
           (Next a, mkState (self s) (event s) w).

(** [time.Now()] *)
Definition time_Now : M Time :=
  on_world (fun w =>
    (clock w (reads w),
     mkWorld (clock w) (S (reads w)) (backend w) (wire w) (logs w))).

Definition log_ (l : Level) (msg : string) : M unit :=
  on_world (fun w =>
    (tt, mkWorld (clock w) (reads w) (backend w) (wire w)
           (logs w ++ [(l, msg)]))).

(** [Do(ctx)] on a request built on client [c]. *)
Definition Do_ (c : Client) (r : Request) : M Reply :=
  on_world (fun w =>
    let (reply, b) := Do c r (backend w) in
    (reply, mkWorld (clock w) (reads w) b (wire w ++ [(r, reply)]) (logs w))).

(** [base + "-" + t.Format(indexSuffixFormat)] *)
Definition indexName (base : string) (t : Time) : string :=
  base ++ "-" ++ Format t indexSuffixFormat.

(** [e.Index + "-" + time.Now().Format(indexSuffixFormat)], the expression
    the method writes out at each place it names the index. *)
Definition e_indexName : M string :=
  base <- load_e Index ;;
  t <- time_Now ;;
  ret (indexName base t).

(** The body of [SendEvent]. *)
Definition SendEvent_body : M unit :=
  ev <- load_event ;;
  log_ DebugLevel (">> Sending to ElasticSearch: " ++ Sprintf_v ev) ;;
  (* set missing cluster name to event object *)
  cn <- load_e ClusterName ;;
  store_event_Cluster cn ;;
  (* Create index if not exists *)
  c <- load_e ELSClient ;;
  name <- e_indexName ;;
  r <- Do_ c (IndexExists name) ;;
  match r with
  | Failed err =>
      log_ ErrorLevel ("Failed to get index. Error:" ++ Error err) ;;
      return_ (Some err)
  | Done exists_ =>
      (if negb exists_ then
         (* Create a new index. *)
         sh <- load_e Shards ;;
         rp <- load_e Replicas ;;
         let mapping :=
           body.mkmapping (body.mksettings (body.mkindex sh rp)) in
         c <- load_e ELSClient ;;
         name <- e_indexName ;;
         r <- Do_ c (CreateIndex name mapping) ;;
         match r with
         | Failed err =>
             log_ ErrorLevel
               ("Failed to create index. Error:" ++ Error err) ;;
             return_ (Some err)
         | Done _ => ret tt
         end
       else ret tt) ;;
      (* Send event to els *)
      c <- load_e ELSClient ;;
      name <- e_indexName ;;
      typ <- load_e Type_ ;;
      ev <- load_event ;;
      r <- Do_ c (IndexDoc name typ ev) ;;
      match r with
      | Failed err =>
          log_ ErrorLevel
            ("Failed to post data to els. Error:" ++ Error err) ;;
          return_ (Some err)
      | Done _ =>
          c <- load_e ELSClient ;;
          name <- e_indexName ;;
          r <- Do_ c (Flush name) ;;
          match r with
          | Failed err =>
              log_ ErrorLevel
                ("Failed to flush data to els. Error:" ++ Error err) ;;
              return_ (Some err)
          | Done _ =>
              name <- e_indexName ;;
              log_ DebugLevel
                ("Event successfully sent to ElasticSearch index " ++ name) ;;
              return_ None
          end
      end
  end.

(** What a call leaves behind: the error returned, the object the receiver
    points to, the callee's copy of the event as it stands at the return,
    and the world. *)
Record Outcome := mkOutcome {
  returned : option error;
  receiver : ElasticSearch;
  parameter : Event;
  after : World }.

(** SendEvent sends event notification to slack.  The receiver is a
    pointer, so the body works on the caller's object; the event is passed
    by value, so the body works on a copy of it. *)
Definition SendEvent (e : ElasticSearch) (ev : Event) (w : World)
  : Outcome :=
  let (r, s) := SendEvent_body (mkState e ev w) in
  mkOutcome (match r with Return err => err | Next _ => None end)
    (self s) (event s) (world s).

(** SendMessage sends message to slack channel.  The body is the single
    statement [return nil]: the error returned, the object the receiver
    points to and the world after the call. *)
Definition SendMessage (e : ElasticSearch) (msg : string) (w : World)
  : option error * ElasticSearch * World :=
  (None, e, w).

(** ** Reading the wire *)

(** The exchanges and the requests of one call: what the call added to the
    wire of the world it started in. *)
Definition issued (w : World) (o : Outcome) : list (Request * Reply) :=
  skipn (List.length (wire w)) (wire (after o)).

Definition requests (w : World) (o : Outcome) : list Request :=
  map fst (issued w o).

(** The index a request addresses. *)
Definition target (r : Request) : string :=
  match r with
  | IndexExists name => name
  | CreateIndex name _ => name
  | IndexDoc name _ _ => name
  | Flush name => name
  end.

Definition is_create (r : Request) : bool :=
  match r with CreateIndex _ _ => true | _ => false end.

Definition is_write (r : Request) : bool :=
  match r with IndexDoc _ _ _ => true | _ => false end.

Definition is_flush (r : Request) : bool :=
  match r with Flush _ => true | _ => false end.

(** The shape (shard and replica counts) a request carries, if any. *)
Definition shape (r : Request) : option body.mapping :=
  match r with CreateIndex _ m => Some m | _ => None end.

Definition count (p : Request -> bool) (rs : list Request) : nat :=
  List.length (filter p rs).

(** The step of the method a request belongs to, and the text the method
    logs when that step fails. *)
Inductive Stage := ExistenceCheck | CreateTarget | Write | FlushTarget.

Definition stage (r : Request) : Stage :=
  match r with
  | IndexExists _ => ExistenceCheck
  | CreateIndex _ _ => CreateTarget
  | IndexDoc _ _ _ => Write
  | Flush _ => FlushTarget
  end.

Definition failure_text (s : Stage) : string :=
  match s with
  | ExistenceCheck => "Failed to get index. Error:"
  | CreateTarget => "Failed to create index. Error:"
  | Write => "Failed to post data to els. Error:"
  | FlushTarget => "Failed to flush data to els. Error:"
  end.

(** ** The paths through [SendEvent]

    One call of the method takes one of six paths.  [checked] lists the
    exchanges up to the point where the index is known to exist, [path] the
    whole call: its exchanges, the log entries it writes after the first one,
    and the error it returns. *)

Section Paths.

Variables (e : ElasticSearch) (ev : Event) (w : World).

(** The index name built from the [i]-th clock reading of the call. *)
Definition name_at (i : nat) : string :=
  indexName (Index e) (clock w (i + reads w)).

(** The document and the create-index body the method builds. *)
Definition document : Event := mkEvent (ClusterName e) (Fields ev).

Definition mapping_of_sink : body.mapping :=
  body.mkmapping (body.mksettings (body.mkindex (Shards e) (Replicas e))).

Inductive checked : list (Request * Reply) -> Prop :=
| checked_present :
    checked [(IndexExists (name_at 0), Done true)]
| checked_created b :
    checked [(IndexExists (name_at 0), Done false);
             (CreateIndex (name_at 1) mapping_of_sink, Done b)].

Inductive path :
  list (Request * Reply) -> list (Level * string) -> option error -> Prop :=
| path_check_failed err :
    path [(IndexExists (name_at 0), Failed err)]
         [(ErrorLevel, failure_text ExistenceCheck ++ Error err)]
         (Some err)
| path_create_failed err :
    path [(IndexExists (name_at 0), Done false);
          (CreateIndex (name_at 1) mapping_of_sink, Failed err)]
         [(ErrorLevel, failure_text CreateTarget ++ Error err)]
         (Some err)
| path_write_failed pre err :
    checked pre ->
    path (pre ++ [(IndexDoc (name_at (List.length pre)) (Type_ e) document,
                   Failed err)])
         [(ErrorLevel, failure_text Write ++ Error err)]
         (Some err)
| path_flush_failed pre b err :
    checked pre ->
    path (pre ++ [(IndexDoc (name_at (List.length pre)) (Type_ e) document,
                   Done b);
                  (Flush (name_at (S (List.length pre))), Failed err)])
         [(ErrorLevel, failure_text FlushTarget ++ Error err)]
         (Some err)
| path_sent pre b b' :
    checked pre ->
    path (pre ++ [(IndexDoc (name_at (List.length pre)) (Type_ e) document,
                   Done b);
                  (Flush (name_at (S (List.length pre))), Done b')])
         [(DebugLevel,
           "Event successfully sent to ElasticSearch index "
             ++ name_at (S (S (List.length pre))))]
         None.

End Paths.

(** The log entries of one call. *)
Definition logged (w : World) (o : Outcome) : list (Level * string) :=
  skipn (List.length (logs w)) (logs (after o)).

(** The reading of C7 as it is written: the error a failing call returns
    tells which step failed, that is, some [category] on errors gives, for
    every failed request, the step of that request when applied to the error
    returned. *)
Definition wraps_in_category (category : error -> Stage) : Prop :=
  forall e ev w r err,
    In (r, Failed err) (issued w (SendEvent e ev w)) ->
    exists err',
      returned (SendEvent e ev w) = Some err' /\ category err' = stage r.

(** The credentials the signed mode takes: those of the role when a role is
    configured, those of the instance otherwise. *)
Definition credentials_for (c : config.Config) (sess : Session)
  : Credentials :=
  let aws := config.AWSSigning_ (config.CommunicationsConfig_ElasticSearch c) in
  if (config.RoleArn aws =? "")%string
  then ec2rolecreds_NewCredentials sess
  else stscreds_NewCredentials sess (config.RoleArn aws).

End Notifier.

Arguments mkClient {HttpClient}.
Arguments urls {HttpClient}.
Arguments scheme {HttpClient}.
Arguments httpClient {HttpClient}.
Arguments basicAuthUsername {HttpClient}.
Arguments basicAuthPassword {HttpClient}.
Arguments snifferEnabled {HttpClient}.
Arguments healthcheckEnabled {HttpClient}.
Arguments gzipEnabled {HttpClient}.
Arguments v4_NewSigner {Session}.
Arguments stscreds_NewCredentials {Session}.
Arguments ec2rolecreds_NewCredentials {Session}.
Arguments credentials_for {Session}.
Arguments mkElasticSearch {HttpClient}.
Arguments ELSClient {HttpClient}.
Arguments Server {HttpClient}.
Arguments Index {HttpClient}.
Arguments Shards {HttpClient}.
Arguments Replicas {HttpClient}.
Arguments Type_ {HttpClient}.
Arguments ClusterName {HttpClient}.
Arguments Built {error HttpClient}.
Arguments Refused {error HttpClient}.
Arguments Panicked {error HttpClient}.
Arguments NewClient {error HttpClient}.
Arguments NewElasticSearch {error HttpClient} defaults startup {Session}.
Arguments mkEvent {EventFields}.
Arguments Cluster {EventFields}.
Arguments Fields {EventFields}.
Arguments IndexExists {EventFields}.
Arguments CreateIndex {EventFields}.
Arguments IndexDoc {EventFields}.
Arguments Flush {EventFields}.
Arguments Done {error}.
Arguments Failed {error}.
Arguments mkWorld {error EventFields Backend}.
Arguments clock {error EventFields Backend}.
Arguments reads {error EventFields Backend}.
Arguments backend {error EventFields Backend}.
Arguments wire {error EventFields Backend}.
Arguments logs {error EventFields Backend}.
Arguments SendEvent {error} Error {HttpClient EventFields} Sprintf_v
  {Backend} Do.
Arguments SendMessage {error HttpClient EventFields Backend}.
Arguments returned {error HttpClient EventFields Backend}.
Arguments receiver {error HttpClient EventFields Backend}.
Arguments parameter {error HttpClient EventFields Backend}.
Arguments after {error HttpClient EventFields Backend}.
Arguments issued {error HttpClient EventFields Backend}.
Arguments requests {error HttpClient EventFields Backend}.
Arguments logged {error HttpClient EventFields Backend}.
Arguments target {EventFields}.
Arguments is_create {EventFields}.
Arguments is_write {EventFields}.
Arguments is_flush {EventFields}.
Arguments shape {EventFields}.
Arguments count {EventFields}.
Arguments stage {EventFields}.
Arguments name_at {error HttpClient EventFields Backend}.
Arguments document {HttpClient EventFields}.
Arguments mapping_of_sink {HttpClient}.
Arguments checked {error HttpClient EventFields Backend}.
Arguments checked_present {error HttpClient EventFields Backend}.
Arguments checked_created {error HttpClient EventFields Backend}.
Arguments path {error} Error {HttpClient EventFields Backend}.
Arguments path_check_failed {error} Error {HttpClient EventFields Backend}.
Arguments path_create_failed {error} Error {HttpClient EventFields Backend}.
Arguments path_write_failed {error} Error {HttpClient EventFields Backend}.
Arguments path_flush_failed {error} Error {HttpClient EventFields Backend}.
Arguments path_sent {error} Error {HttpClient EventFields Backend}.
Arguments wraps_in_category {error} Error {HttpClient EventFields} Sprintf_v
  {Backend} Do.

(** ** A store to run the notifier against

    A store in memory with failures on demand, the kind a test of the
    notifier would put behind the client: errors are texts, the transport is
    either the plain one or a signing one, the remaining fields of an event
    are its message. *)

Module Fake.

Definition error : Type := string.

Definition Error (err : error) : string := err.

Inductive HttpClient :=
| plain
| signing (service region : string).

Definition EventFields : Type := string.

Definition Sprintf_v (ev : Event EventFields) : string :=
  "{Cluster:" ++ Cluster ev ++ " Message:" ++ Fields ev ++ "}".

(** The indices the store holds, and the steps it fails at. *)
Record Store := mkStore {
  indices : list string;
  broken : list Stage }.

Definition Stage_eqb (a b : Stage) : bool :=
  match a, b with
  | ExistenceCheck, ExistenceCheck => true
  | CreateTarget, CreateTarget => true
  | Write, Write => true
  | FlushTarget, FlushTarget => true
  | _, _ => false
  end.

Definition Do (c : Client HttpClient) (r : Request EventFields) (b : Store)
  : Reply error * Store :=
  if existsb (Stage_eqb (stage r)) (broken b)
  then (Failed "EOF", b)
  else
    match r with
    | IndexExists name => (Done (existsb (String.eqb name) (indices b)), b)
    | CreateIndex name _ => (Done true, mkStore (name :: indices b) (broken b))
    | IndexDoc _ _ _ => (Done true, b)
    | Flush _ => (Done true, b)
    end.

Definition client : Client HttpClient :=
  mkClient ["http://localhost:9200"] "http" plain "" "" false false true.

Definition sink : ElasticSearch HttpClient :=
  mkElasticSearch client "" "k8sevents" 5 1 "doc" "production".

Definition an_event : Event EventFields := mkEvent "staging" "pod created".

(** A clock that stays on 2024-03-07, and one that passes midnight of
    2023-12-31 after its second reading. *)
Definition steady (n : nat) : Time := mkTime 2024 3 7.

Definition rollover (n : nat) : Time :=
  if (n <? 2)%nat then mkTime 2023 12 31 else mkTime 2024 1 1.

Definition world (now : nat -> Time) (b : Store) : World error EventFields Store :=
  mkWorld now 0%nat b [] [].

Definition fresh : Store := mkStore [] [].

Definition existing : Store := mkStore ["k8sevents-07-03-2024"] [].

Definition failing (s : Stage) (b : Store) : Store :=
  mkStore (indices b) (s :: broken b).

Abbreviation send := (SendEvent Error Sprintf_v Do).

(** What the constructor needs: the library's defaults (sniffing and health
    checks on, no compression), a start that refuses an empty address, a
    session, and the making of a signing client. *)
Definition defaults : Client HttpClient :=
  mkClient ["http://127.0.0.1:9200"] "http" plain "" "" true true false.

Definition startup (c : Client HttpClient) : option error :=
  match urls c with
  | [""] => Some "no Elasticsearch node available"
  | _ => None
  end.

Definition NewSession : error + unit := inr tt.

Definition aws_signing_client_New (s : Signer unit) (service region : string)
  : error + HttpClient :=
  if (region =? "")%string then inl "region not set"
  else inr (signing service region).

Abbreviation construct :=
  (NewElasticSearch defaults startup NewSession aws_signing_client_New).

Definition basic_config : config.Config :=
  config.mkConfig
    (config.mkElasticSearch "http://els:9200" "elastic" "changeme"
       (config.mkAWSSigning false "" "")
       (config.mkIndex "k8sevents" "doc" 5 1))
    (config.mkSettings "production").

Definition signed_config : config.Config :=
  config.mkConfig
    (config.mkElasticSearch "https://search.example" "" ""
       (config.mkAWSSigning true "eu-west-1" "")
       (config.mkIndex "k8sevents" "doc" 5 1))
    (config.mkSettings "production").

End Fake.

(** ** The store and the wire

    [served Do c b xs b']: sent in this order through the client [c] to the
    store in state [b], the requests of [xs] get the replies of [xs] and
    leave the store in state [b']. *)
Inductive served {error HttpClient EventFields Backend : Type}
  (Do : Client HttpClient -> Request EventFields -> Backend
        -> Reply error * Backend)
  (c : Client HttpClient)
  : Backend -> list (Request EventFields * Reply error) -> Backend -> Prop :=
| served_none b : served Do c b [] b
| served_next b r reply b' xs b'' :
    Do c r b = (reply, b') ->
    served Do c b' xs b'' ->
    served Do c b ((r, reply) :: xs) b''.

(** What the notifier counts on from the store.  [index_there Do name b]:
    in state [b] an existence check for [name], when it is answered at all,
    is answered with yes.  [store_keeps_indices]: no request makes the store
    lose an index.  [create_makes_index]: after a create request that has
    succeeded the index is there. *)
Definition index_there {error HttpClient EventFields Backend : Type}
  (Do : Client HttpClient -> Request EventFields -> Backend
        -> Reply error * Backend)
  (name : string) (b : Backend) : Prop :=
  forall c y b', Do c (IndexExists name) b = (Done y, b') -> y = true.

Definition store_keeps_indices {error HttpClient EventFields Backend : Type}
  (Do : Client HttpClient -> Request EventFields -> Backend
        -> Reply error * Backend) : Prop :=
  forall name c r b reply b',
    index_there Do name b -> Do c r b = (reply, b') ->
    index_there Do name b'.

Definition create_makes_index {error HttpClient EventFields Backend : Type}
  (Do : Client HttpClient -> Request EventFields -> Backend
        -> Reply error * Backend) : Prop :=
  forall name c m b x b',
    Do c (CreateIndex name m) b = (Done x, b') ->
    index_there Do name b'.

(** A date of the calendar, in the years that take four digits. *)
Definition calendar_date (t : Time) : Prop :=
  1 <= Day t <= 31 /\ 1 <= Month t <= 12 /\ 0 <= Year t <= 9999.

(** The date format as the specification words it, DD-MM-YYYY, written out
    digit by digit and apart from [Format]: the tens and the units of the
    day, a dash, the tens and the units of the month, a dash, and the four
    digits of the year, from the thousands to the units. *)
Definition digit (n : Z) : ascii := ascii_of_nat (48 + Z.to_nat n).

Definition two_digits (n : Z) : string :=
  String (digit (n / 10)) (String (digit (n mod 10)) "").

Definition four_digits (n : Z) : string :=
  String (digit (n / 1000))
    (String (digit (n / 100 mod 10))
       (String (digit (n / 10 mod 10))
          (String (digit (n mod 10)) ""))).

Definition DD_MM_YYYY (t : Time) : string :=
  two_digits (Day t) ++ "-" ++ two_digits (Month t) ++ "-"
    ++ four_digits (Year t).

(** Reading a decimal numeral back. *)
Definition atoi (s : string) : Z :=
  match NilZero.uint_of_string s with
  | Some d => Z.of_uint d
  | None => 0
  end.

(** A configuration with signing enabled and no region, for which the
    signing client of [Fake] cannot be made. *)
Definition signed_config_without_region : config.Config :=
  config.mkConfig
    (config.mkElasticSearch "https://search.example" "" ""
       (config.mkAWSSigning true "" "")
       (config.mkIndex "k8sevents" "doc" 5 1))
    (config.mkSettings "production").

(** * Properties *)

(** ** The date in the name of the index *)

Lemma length_append (a b : string) :
  String.length (a ++ b) = (String.length a + String.length b)%nat.
Proof. induction a as [|c a IH]; cbn; [reflexivity | now rewrite IH]. Qed.

Lemma below_all (p : nat -> bool) (bound : nat) :
  forallb p (seq 0 bound) = true ->
  forall k, (k < bound)%nat -> p k = true.
Proof.
  intros H k Hk; rewrite forallb_forall in H.
  apply H, in_seq; lia.
Qed.

Lemma appendInt_width (width : nat) (bound : Z) :
  forallb
    (fun k => (String.length (appendInt (Z.of_nat k) width) =? width)%nat)
    (seq 0 (Z.to_nat bound)) = true ->
  forall n, 0 <= n < bound ->
  String.length (appendInt n width) = width.
Proof.
  intros H n Hn.
  pose proof (below_all _ _ H (Z.to_nat n)) as Hk; cbv beta in Hk.
  rewrite Z2Nat.id in Hk by lia.
  apply Nat.eqb_eq, Hk; lia.
Qed.

(** The layout [02-01-2006] gives the day on two digits, the month on two
    digits and the year on four, with dashes between: ten characters for
    every date of the years 0 to 9999. *)
Lemma Format_indexSuffixFormat (t : Time) :
  Format t indexSuffixFormat
  = appendInt (Day t) 2 ++ "-" ++ appendInt (Month t) 2 ++ "-"
      ++ appendInt (Year t) 4.
Proof. reflexivity. Qed.

Lemma Format_indexSuffixFormat_length (t : Time) :
  1 <= Day t <= 31 -> 1 <= Month t <= 12 -> 0 <= Year t <= 9999 ->
  String.length (appendInt (Day t) 2) = 2%nat
  /\ String.length (appendInt (Month t) 2) = 2%nat
  /\ String.length (appendInt (Year t) 4) = 4%nat
  /\ String.length (Format t indexSuffixFormat) = 10%nat.
Proof.
  intros Hd Hm Hy.
  assert (D : String.length (appendInt (Day t) 2) = 2%nat)
    by (apply (appendInt_width 2 100); [vm_compute; reflexivity | lia]).
  assert (M : String.length (appendInt (Month t) 2) = 2%nat)
    by (apply (appendInt_width 2 100); [vm_compute; reflexivity | lia]).
  assert (Y : String.length (appendInt (Year t) 4) = 4%nat)
    by (apply (appendInt_width 4 10000); [vm_compute; reflexivity | lia]).
  repeat split; try assumption.
  rewrite Format_indexSuffixFormat, !length_append, D, M, Y; reflexivity.
Qed.

Lemma agree_below (f g : Z -> string) (bound : Z) :
  forallb (fun k => (f (Z.of_nat k) =? g (Z.of_nat k))%string)
    (seq 0 (Z.to_nat bound)) = true ->
  forall n, 0 <= n < bound -> f n = g n.
Proof.
  intros H n Hn.
  pose proof (below_all _ _ H (Z.to_nat n)) as Hk; cbv beta in Hk.
  rewrite Z2Nat.id in Hk by lia.
  apply String.eqb_eq, Hk; lia.
Qed.

Lemma appendInt_is_two_digits n :
  0 <= n < 100 -> appendInt n 2 = two_digits n.
Proof.
  apply (agree_below (fun n => appendInt n 2) two_digits 100).
  vm_compute; reflexivity.
Qed.

Lemma appendInt_is_four_digits n :
  0 <= n < 10000 -> appendInt n 4 = four_digits n.
Proof.
  apply (agree_below (fun n => appendInt n 4) four_digits 10000).
  vm_compute; reflexivity.
Qed.

(** On a date of the calendar, [Format] with the layout of the notifier
    gives the date as DD-MM-YYYY: the digits of the day, then those of the
    month, then those of the year. *)
Lemma Format_is_DD_MM_YYYY (t : Time) :
  calendar_date t -> Format t indexSuffixFormat = DD_MM_YYYY t.
Proof.
  intros (Hd & Hm & Hy).
  rewrite Format_indexSuffixFormat; unfold DD_MM_YYYY.
  rewrite !appendInt_is_two_digits, appendInt_is_four_digits by lia.
  reflexivity.
Qed.

(** ** The paths of a call *)

Section Properties.

Set Default Proof Using "Type".

Variable error : Type.
Variable Error : error -> string.
Variable HttpClient : Type.
Variable defaults : Client HttpClient.
Variable startup : Client HttpClient -> option error.
Variable Session : Type.
Variable NewSession : error + Session.
Variable aws_signing_client_New :
  Signer Session -> string -> string -> error + HttpClient.
Variable EventFields : Type.
Variable Sprintf_v : Event EventFields -> string.
Variable Backend : Type.
Variable Do :
  Client HttpClient -> Request EventFields -> Backend -> Reply error * Backend.

Implicit Types (e : ElasticSearch HttpClient) (ev : Event EventFields).
Implicit Types (w : World error EventFields Backend).

Lemma skipn_length_app {A} (l x : list A) :
  skipn (List.length l) (l ++ x) = x.
Proof. induction l as [|a l IH]; [destruct x|]; simpl; auto. Qed.

(** Running the body: unfold the statements, then split on each reply. *)
Ltac unfold_body :=
  unfold SendEvent, SendEvent_body, e_indexName, Do_, log_, time_Now,
    on_world, bind, ret, return_, load_e, load_event, store_event_Cluster;
  cbn.

Ltac split_reply :=
  match goal with
  | |- context [Do ?c ?r ?b] =>
      let reply := fresh "reply" in
      let b' := fresh "b" in
      let E := fresh "E" in
      destruct (Do c r b) as [reply b'] eqn:E;
      destruct reply as [? | ?]; cbn
  | |- context [negb ?x] => destruct x; cbn
  end.

Ltac take_path e ev w :=
  first
    [ exact (path_check_failed Error e ev w _)
    | exact (path_create_failed Error e ev w _)
    | exact (path_write_failed Error e ev w [_] _ (checked_present e w))
    | exact (path_write_failed Error e ev w [_; _] _ (checked_created e w _))
    | exact (path_flush_failed Error e ev w [_] _ _ (checked_present e w))
    | exact (path_flush_failed Error e ev w [_; _] _ _ (checked_created e w _))
    | exact (path_sent Error e ev w [_] _ _ (checked_present e w))
    | exact (path_sent Error e ev w [_; _] _ _ (checked_created e w _)) ].

(** Every call takes one of the paths, leaves the receiver's object as it
    was, and leaves in its own copy of the event the event it was given with
    the cluster label of the sink. *)
Lemma SendEvent_takes_a_path e ev w :
  let o := SendEvent Error Sprintf_v Do e ev w in
  exists l,
    logged w o
      = (DebugLevel, ">> Sending to ElasticSearch: " ++ Sprintf_v ev) :: l
    /\ path Error e ev w (issued w o) l (returned o)
    /\ receiver o = e
    /\ parameter o = document e ev
    /\ clock (after o) = clock w.
Proof.
  unfold_body; repeat split_reply;
    unfold issued, logged; cbn;
    rewrite <- ?app_assoc; rewrite ?skipn_length_app; cbn;
    eexists; (split; [reflexivity|]);
    (split; [take_path e ev w | repeat split; reflexivity]).
Qed.

(** Case analysis on the path a call takes: the exchanges and the error
    returned become those of the path. *)
Ltac by_paths e ev w :=
  let l := fresh "l" in
  let HL := fresh "HL" in
  let P := fresh "P" in
  let HR := fresh "HR" in
  let HP := fresh "HP" in
  let HC := fresh "HC" in
  let C := fresh "C" in
  destruct (SendEvent_takes_a_path e ev w) as (l & HL & P & HR & HP & HC);
  unfold requests;
  revert HL P;
  generalize (logged w (SendEvent Error Sprintf_v Do e ev w));
  generalize (returned (SendEvent Error Sprintf_v Do e ev w));
  generalize (issued w (SendEvent Error Sprintf_v Do e ev w));
  intros ? ? ? HL P;
  destruct P as [? | ? | ? ? C | ? ? ? C | ? ? ? C]; try destruct C;
  cbn [app map fst List.length] in *.

(** Going through the members of an explicit list. *)
Ltac in_cases :=
  repeat match goal with
    | H : In _ (_ :: _) |- _ =>
        destruct H as [H | H]; [inversion H; clear H; subst |]
    | H : In _ [] |- _ => destruct H
    end.

(** ** Create at most once, and first *)

(** C1.  When the existence check of a call answers that the index is
    absent, the call sends exactly one create-index request: it is the second
    request of the call, right after the check, so it comes before the write
    request, of which there is at most one, and exactly one once the create
    request has succeeded.  When the check answers that the index exists, the
    call sends no create-index request. *)
Theorem SendEvent_creates_once_and_first e ev w :
  let o := SendEvent Error Sprintf_v Do e ev w in
  (forall n, In (IndexExists n, Done false) (issued w o) ->
     count is_create (requests w o) = 1%nat
     /\ (exists n' m rest,
           requests w o = IndexExists n :: CreateIndex n' m :: rest
           /\ count is_create rest = 0%nat
           /\ (count is_write rest <= 1)%nat)
     /\ (forall n' m b, In (CreateIndex n' m, Done b) (issued w o) ->
           count is_write (requests w o) = 1%nat))
  /\ (forall n, In (IndexExists n, Done true) (issued w o) ->
       count is_create (requests w o) = 0%nat).
Proof.
  intros o; subst o; split; by_paths e ev w; intros n H; in_cases.
  all: repeat split; try reflexivity.
  all: try (do 3 eexists; repeat split; cbn; lia).
  all: intros n' m b' H; in_cases; reflexivity.
Qed.

(** ** The name of the index *)

Lemma name_at_clock e w i :
  name_at e w i = indexName (Index e) (clock w (reads w + i)).
Proof. unfold name_at; now rewrite Nat.add_comm. Qed.

(** C2.  The requests of a call address, in the order they are sent, the
    index names built from the successive readings of the clock: the [i]-th
    request of the call carries the base name, a dash and the date of the
    [i]-th reading in the layout [02-01-2006].  Each request has a reading of
    its own; none reuses the name built for an earlier one.  On a reading
    that is a date of the calendar that date stands in the name as
    DD-MM-YYYY: the two digits of the day of the reading, a dash, the two
    digits of its month, a dash, the four digits of its year.  For the base
    [k8sevents] and a reading on 2024-03-07 the name is
    [k8sevents-07-03-2024]. *)
Theorem SendEvent_names_each_request_from_the_clock e ev w :
  let o := SendEvent Error Sprintf_v Do e ev w in
  map target (requests w o)
  = map (fun i => (Index e ++ "-"
                     ++ Format (clock w (reads w + i)) indexSuffixFormat)%string)
        (seq 0 (List.length (requests w o)))
  /\ (forall i r,
        nth_error (requests w o) i = Some r ->
        calendar_date (clock w (reads w + i)) ->
        target r
        = (Index e ++ "-"
             ++ two_digits (Day (clock w (reads w + i))) ++ "-"
             ++ two_digits (Month (clock w (reads w + i))) ++ "-"
             ++ four_digits (Year (clock w (reads w + i))))%string)
  /\ indexName "k8sevents" (mkTime 2024 3 7) = "k8sevents-07-03-2024".
Proof.
  intros o; subst o; split; [| split; [| reflexivity]].
  - by_paths e ev w; cbn [map target seq List.length];
      rewrite !name_at_clock; reflexivity.
  - by_paths e ev w; intros i r H C;
      repeat (destruct i as [| i]; cbn in H; try discriminate);
      injection H as <-; cbn [target];
      rewrite name_at_clock; unfold indexName;
      rewrite (Format_is_DD_MM_YYYY _ C); reflexivity.
Qed.

(** ** The document written *)

(** C3.  Whatever cluster the caller has put in the event, the document of
    every write request of a call carries the cluster label of the sink; its
    other fields are those of the caller's event. *)
Theorem SendEvent_writes_the_sink_cluster e ev w n typ doc reply :
  In (IndexDoc n typ doc, reply) (issued w (SendEvent Error Sprintf_v Do e ev w)) ->
  Cluster doc = ClusterName e /\ Fields doc = Fields ev.
Proof.
  by_paths e ev w; intros H; in_cases; split; reflexivity.
Qed.

(** ** Failures *)

(** C4.  When the existence check of a call fails, the check is the only
    request of the call (no create, write or flush request follows) and the
    call returns the error of the check. *)
Theorem SendEvent_stops_at_failed_check e ev w n err :
  let o := SendEvent Error Sprintf_v Do e ev w in
  In (IndexExists n, Failed err) (issued w o) ->
  requests w o = [IndexExists n]
  /\ count is_create (requests w o) = 0%nat
  /\ count is_write (requests w o) = 0%nat
  /\ count is_flush (requests w o) = 0%nat
  /\ returned o = Some err.
Proof.
  intros o; subst o.
  by_paths e ev w; intros H; in_cases; repeat split; reflexivity.
Qed.

(** C5.  When the write request of a call fails, the call sends no flush
    request and returns the error of the write. *)
Theorem SendEvent_does_not_flush_a_failed_write e ev w n typ doc err :
  let o := SendEvent Error Sprintf_v Do e ev w in
  In (IndexDoc n typ doc, Failed err) (issued w o) ->
  count is_flush (requests w o) = 0%nat /\ returned o = Some err.
Proof.
  intros o; subst o.
  by_paths e ev w; intros H; in_cases; split; reflexivity.
Qed.

(** ** The shape of the index *)

(** C6.  In a call, a request that carries shard and replica counts is a
    create-index request, and its body serialises to the object
    [settings] / [index] / [number_of_shards], [number_of_replicas] with the
    counts of the sink; no write or flush request carries counts; and a call
    whose existence check answers that the index exists sends no request that
    carries counts. *)
Theorem SendEvent_shape_travels_with_create_only e ev w :
  let o := SendEvent Error Sprintf_v Do e ev w in
  (forall r reply m,
     In (r, reply) (issued w o) -> shape r = Some m ->
     is_create r = true
     /\ body.mapping_json m
        = JObject
            [("settings",
              JObject
                [("index",
                  JObject [("number_of_shards", JNumber (Shards e));
                           ("number_of_replicas", JNumber (Replicas e))])])])
  /\ (forall r,
        In r (requests w o) -> is_write r || is_flush r = true ->
        shape r = None)
  /\ (forall n r,
        In (IndexExists n, Done true) (issued w o) ->
        In r (requests w o) -> shape r = None).
Proof.
  intros o; subst o; split; [| split]; by_paths e ev w; intros;
    in_cases; cbn in *; try discriminate; try reflexivity;
    match goal with
    | H : Some _ = Some _ |- _ => inversion H; subst; split; reflexivity
    end.
Qed.

(** ** What a failing call returns and logs *)

(** C7, as the method has it.  When a request of a call fails, the call
    returns the error of that request as it is; the failed request is the
    last one the call sends, and no step is tried twice; the last entry the
    call logs is an error entry made of the text of the failed step and the
    text of the error.  And a call that returns an error has had a request
    fail with that error. *)
Theorem SendEvent_passes_the_error_on e ev w :
  let o := SendEvent Error Sprintf_v Do e ev w in
  (forall r err,
     In (r, Failed err) (issued w o) ->
     returned o = Some err
     /\ (exists pre, issued w o = pre ++ [(r, Failed err)])%list
     /\ NoDup (map stage (requests w o))
     /\ logged w o
        = [(DebugLevel, ">> Sending to ElasticSearch: " ++ Sprintf_v ev);
           (ErrorLevel, failure_text (stage r) ++ Error err)])
  /\ (forall err,
        returned o = Some err ->
        exists r, In (r, Failed err) (issued w o)).
Proof.
  intros o; subst o; split.
  - by_paths e ev w; intros r err' H; in_cases; subst;
      (split; [reflexivity |]);
      (split; [first [ exists []; reflexivity
                     | eexists [_]; reflexivity
                     | eexists [_; _]; reflexivity
                     | eexists [_; _; _]; reflexivity ] |]);
      (split; [| reflexivity]);
      cbn [map stage];
      repeat (apply NoDup_cons; [intro; in_cases |]);
      apply NoDup_nil.
  - by_paths e ev w; intros err' H; inversion H; subst;
      eexists; cbn;
      first [ left; reflexivity
            | right; left; reflexivity
            | right; right; left; reflexivity
            | right; right; right; left; reflexivity ].
Qed.

(** ** The free-text message *)

(** C9.  [SendMessage] returns no error, whatever the message, and leaves the
    world as it was: no request on the wire, no reading of the clock, no log
    entry, and the receiver's object untouched. *)
Theorem SendMessage_does_nothing e msg w :
  SendMessage e msg w = (None, e, w).
Proof. reflexivity. Qed.

(** ** What a call leaves untouched *)

(** C10.  A call leaves the object the receiver points to as it was, field
    by field.  The overwrite of the cluster label lands in the callee's own
    copy of the event: at the return that copy is the caller's event with the
    cluster label of the sink, it is the document of every write request,
    and it is the caller's event again exactly when the caller had set that
    label already.  The caller's event [ev] is a value handed to the call;
    no statement of the body addresses it. *)
Theorem SendEvent_leaves_sink_and_event e ev w :
  let o := SendEvent Error Sprintf_v Do e ev w in
  receiver o = e
  /\ (ELSClient (receiver o) = ELSClient e
      /\ Index (receiver o) = Index e
      /\ Type_ (receiver o) = Type_ e
      /\ Shards (receiver o) = Shards e
      /\ Replicas (receiver o) = Replicas e
      /\ ClusterName (receiver o) = ClusterName e)
  /\ parameter o = mkEvent (ClusterName e) (Fields ev)
  /\ (forall n typ doc reply,
        In (IndexDoc n typ doc, reply) (issued w o) -> doc = parameter o)
  /\ (parameter o = ev <-> Cluster ev = ClusterName e).
Proof.
  intros o; subst o.
  destruct (SendEvent_takes_a_path e ev w) as (l & _ & _ & HR & HP & _).
  rewrite HR, HP; unfold document.
  split; [reflexivity |]. split; [repeat split |].
  split; [reflexivity |]. split.
  - by_paths e ev w; intros; in_cases; reflexivity.
  - destruct ev as [c f]; cbn; split; [now intros [= ->] | now intros ->].
Qed.

(** ** The constructor *)

(** C8.  A notifier the constructor builds has a client set up by the mode
    the signing flag selects, on top of the library's defaults.  In both
    modes topology discovery (sniffing) and health polling are off.  With
    signing enabled, compression is off, the transport is the signing client
    made for the service [es] and the configured region from the credentials
    above, and the user name and password stay those of the defaults: no
    static credentials are attached.  With signing disabled, compression is
    on, the configured user name and password are attached, and the
    transport stays that of the defaults: nothing is signed. *)
Theorem NewElasticSearch_sets_the_client_by_mode c n :
  NewElasticSearch defaults startup NewSession aws_signing_client_New c
  = Built n ->
  let es := config.CommunicationsConfig_ElasticSearch c in
  let cl := ELSClient n in
  snifferEnabled cl = false
  /\ healthcheckEnabled cl = false
  /\ urls cl = [config.Server es]
  /\ if config.Enabled (config.AWSSigning_ es)
     then gzipEnabled cl = false
          /\ scheme cl = "https"
          /\ (exists sess,
                NewSession = inr sess
                /\ aws_signing_client_New
                     (v4_NewSigner (credentials_for c sess)) awsService
                     (config.AWSRegion (config.AWSSigning_ es))
                   = inr (httpClient cl))
          /\ basicAuthUsername cl = basicAuthUsername defaults
          /\ basicAuthPassword cl = basicAuthPassword defaults
     else gzipEnabled cl = true
          /\ basicAuthUsername cl = config.Username es
          /\ basicAuthPassword cl = config.Password es
          /\ httpClient cl = httpClient defaults
          /\ scheme cl = scheme defaults.
Proof.
  unfold NewElasticSearch, NewClient, credentials_for.
  destruct (config.Enabled _) eqn:Emode.
  - destruct NewSession as [err | sess]; [discriminate |].
    destruct (config.RoleArn _ =? "")%string;
      cbn [negb];
      destruct (aws_signing_client_New _ _ _) as [err | awsClient] eqn:Eaws;
      try discriminate;
      destruct (startup _); try discriminate;
      intros [= <-]; cbn; repeat split; eauto.
  - destruct (startup _); try discriminate.
    intros [= <-]; cbn; repeat split.
Qed.

(** ** The steps of a call, one after the other *)

(** Finding a member in an explicit list. *)
Ltac pick := solve [left; reflexivity | right; pick].


(** When the create-index request of a call fails, the call has sent the
    existence check, answered with absent, and the create request, and
    nothing else: no document is written, nothing is flushed, and the error
    of the create request is returned. *)
Theorem SendEvent_stops_at_failed_create e ev w n m err :
  let o := SendEvent Error Sprintf_v Do e ev w in
  In (CreateIndex n m, Failed err) (issued w o) ->
  (exists n0,
     issued w o
     = [(IndexExists n0, Done false); (CreateIndex n m, Failed err)])
  /\ count is_write (requests w o) = 0%nat
  /\ count is_flush (requests w o) = 0%nat
  /\ returned o = Some err.
Proof.
  intros o; subst o.
  by_paths e ev w; intros H; in_cases;
    (split; [eexists; reflexivity | repeat split; reflexivity]).
Qed.

(** When the flush request of a call fails, the call returns the error of
    the flush, and the document has gone out before: the request just before
    the flush is the write of the event under the document type of the sink,
    and it has succeeded.  Nothing is sent after the failed flush to take the
    document back. *)
Theorem SendEvent_failed_flush_follows_the_write e ev w n err :
  let o := SendEvent Error Sprintf_v Do e ev w in
  In (Flush n, Failed err) (issued w o) ->
  returned o = Some err
  /\ exists pre n' b,
       issued w o
       = (pre ++ [(IndexDoc n' (Type_ e)
                     (mkEvent (ClusterName e) (Fields ev)), Done b);
                  (Flush n, Failed err)])%list.
Proof.
  intros o; subst o.
  by_paths e ev w; intros H; in_cases;
    (split; [reflexivity |]);
    first [ eexists [_], _, _; reflexivity
          | eexists [_; _], _, _; reflexivity ].
Qed.

(** A call returns no error exactly when none of its requests has failed;
    it has then sent the write and, last, the flush, and both have
    succeeded. *)
Theorem SendEvent_succeeds_iff_nothing_failed e ev w :
  let o := SendEvent Error Sprintf_v Do e ev w in
  (returned o = None <->
   forall r err, ~ In (r, Failed err) (issued w o))
  /\ (returned o = None ->
      exists pre n b n' b',
        issued w o
        = (pre ++ [(IndexDoc n (Type_ e)
                      (mkEvent (ClusterName e) (Fields ev)), Done b);
                   (Flush n', Done b')])%list).
Proof.
  intros o; subst o; split; [split |].
  - by_paths e ev w; intros H; try discriminate;
      intros r err' H'; in_cases.
  - by_paths e ev w; intros H; try reflexivity; exfalso;
      eapply H; cbn; pick.
  - by_paths e ev w; intros H; try discriminate;
      first [ eexists [_], _, _, _, _; reflexivity
            | eexists [_; _], _, _, _, _; reflexivity ].
Qed.

(** ** The store behind the wire *)

(** What a call records on the wire is what happened at the store: the store
    of the world the call starts in has served the requests of the call, in
    their order, through the client of the sink, with the replies recorded,
    and the store the call leaves is the one these requests have led to.
    The call does nothing else to the store. *)
Theorem SendEvent_wire_is_what_the_store_served e ev w :
  let o := SendEvent Error Sprintf_v Do e ev w in
  served Do (ELSClient e) (backend w) (issued w o) (backend (after o)).
Proof.
  unfold_body; repeat split_reply;
    unfold issued; cbn;
    rewrite <- ?app_assoc; rewrite ?skipn_length_app; cbn;
    repeat (eapply served_next; [eassumption |]);
    apply served_none.
Qed.

(** ** The clock *)

(** A call reads the clock once for each request it sends, and once more,
    for the closing message, when it succeeds. *)
Theorem SendEvent_reads_the_clock_per_request e ev w :
  let o := SendEvent Error Sprintf_v Do e ev w in
  reads (after o)
  = (reads w + List.length (requests w o)
     + match returned o with None => 1 | Some _ => 0 end)%nat.
Proof.
  unfold_body; repeat split_reply;
    unfold requests, issued; cbn;
    rewrite <- ?app_assoc; rewrite ?skipn_length_app; cbn; lia.
Qed.

(** ** The log *)

(** A call writes two log entries.  The first is a debug entry with the
    event as the caller has passed it: it is made before the cluster label
    is overwritten, so it shows the caller's label.  The second is an error
    entry exactly when the call returns an error. *)
Theorem SendEvent_logs_two_entries e ev w :
  let o := SendEvent Error Sprintf_v Do e ev w in
  exists entry,
    logged w o
    = [(DebugLevel, ">> Sending to ElasticSearch: " ++ Sprintf_v ev); entry]
    /\ (fst entry = ErrorLevel <-> returned o <> None).
Proof.
  intros o; subst o.
  by_paths e ev w; subst; eexists; (split; [reflexivity |]); cbn;
    split; intros H; congruence.
Qed.

(** The closing message of a successful call names the index from a reading
    of the clock of its own, taken after the flush: the reading that follows
    those of the requests. *)
Theorem SendEvent_closing_message_reads_the_clock_again e ev w :
  let o := SendEvent Error Sprintf_v Do e ev w in
  returned o = None ->
  logged w o
  = [(DebugLevel, ">> Sending to ElasticSearch: " ++ Sprintf_v ev);
     (DebugLevel,
      "Event successfully sent to ElasticSearch index "
        ++ indexName (Index e)
             (clock w (reads w + List.length (requests w o))))].
Proof.
  intros o; subst o.
  by_paths e ev w; intros H; try discriminate; subst;
    rewrite name_at_clock; reflexivity.
Qed.

(** ** What a call does not depend on *)

(** Running two calls side by side: the names stay folded, so that the same
    request reads the same on both sides. *)
Ltac unfold_both :=
  unfold SendEvent, SendEvent_body, e_indexName, Do_, log_, time_Now,
    on_world, bind, ret, return_, load_e, load_event, store_event_Cluster;
  cbn -[indexName].

Ltac split_both :=
  match goal with
  | |- context [Do ?c ?r ?b] =>
      let reply := fresh "reply" in
      let b' := fresh "b" in
      destruct (Do c r b) as [reply b'];
      destruct reply as [? | ?]; cbn -[indexName]
  | |- context [negb ?x] => destruct x; cbn -[indexName]
  end.

(** A call never reads the [Server] field of the sink: with any other value
    in that field it returns the same error and leaves the same world. *)
Theorem SendEvent_never_reads_Server e server ev w :
  let e' :=
    mkElasticSearch (ELSClient e) server (Index e) (Shards e) (Replicas e)
      (Type_ e) (ClusterName e) in
  returned (SendEvent Error Sprintf_v Do e' ev w)
  = returned (SendEvent Error Sprintf_v Do e ev w)
  /\ after (SendEvent Error Sprintf_v Do e' ev w)
     = after (SendEvent Error Sprintf_v Do e ev w).
Proof.
  unfold_both; repeat split_both; split; reflexivity.
Qed.

(** The cluster label the caller has put in the event reaches the opening
    log entry and nothing else: with any other label in the event the call
    sends the same requests, gets the same replies, returns the same error
    and leaves the same store. *)
Theorem SendEvent_ignores_the_callers_cluster e cluster ev w :
  let o := SendEvent Error Sprintf_v Do e ev w in
  let o' := SendEvent Error Sprintf_v Do e (mkEvent cluster (Fields ev)) w in
  issued w o' = issued w o
  /\ returned o' = returned o
  /\ parameter o' = parameter o
  /\ backend (after o') = backend (after o)
  /\ tl (logged w o') = tl (logged w o).
Proof.
  unfold_both; repeat split_both;
    unfold issued, logged; cbn -[indexName];
    rewrite <- ?app_assoc; rewrite ?skipn_length_app;
    repeat split; reflexivity.
Qed.

(** ** More on the constructor *)

(** With signing disabled the constructor leaves the AWS side alone: it
    makes no session, so it cannot panic, and whatever session and signing
    client the environment would give, the result is the same. *)
Theorem NewElasticSearch_basic_mode_leaves_AWS_alone c
    (Session' : Type) (NewSession' : error + Session')
    (aws_signing_client_New' :
       Signer Session' -> string -> string -> error + HttpClient) :
  config.Enabled
    (config.AWSSigning_ (config.CommunicationsConfig_ElasticSearch c))
  = false ->
  NewElasticSearch defaults startup NewSession' aws_signing_client_New' c
  = NewElasticSearch defaults startup NewSession aws_signing_client_New c
  /\ forall err,
       NewElasticSearch defaults startup NewSession aws_signing_client_New c
       <> Panicked err.
Proof.
  intros H; unfold NewElasticSearch; rewrite H; split; [reflexivity |].
  intros err; destruct (NewClient _ _ _); discriminate.
Qed.

(** The constructor panics exactly when signing is enabled and no session
    can be made; the panic carries the error of the session. *)
Theorem NewElasticSearch_panics_iff_no_session c err :
  NewElasticSearch defaults startup NewSession aws_signing_client_New c
  = Panicked err
  <-> config.Enabled
        (config.AWSSigning_ (config.CommunicationsConfig_ElasticSearch c))
      = true
      /\ NewSession = inl err.
Proof.
  unfold NewElasticSearch.
  destruct (config.Enabled _).
  - destruct NewSession as [err' | sess].
    + split; [intros [= ->]; split; reflexivity | intros [_ [= ->]]; reflexivity].
    + split; [| intros [_ H]; discriminate].
      destruct (aws_signing_client_New _ _ _); [discriminate |].
      destruct (NewClient _ _ _); discriminate.
  - split; [| intros [H _]; discriminate].
    destruct (NewClient _ _ _); discriminate.
Qed.

(** When the signing client cannot be made, the constructor returns the
    error of its making, and no notifier: the client of the store is not
    asked for, so whatever it would have said does not matter. *)
Theorem NewElasticSearch_returns_the_signing_error c sess err
    (startup' : Client HttpClient -> option error) :
  config.Enabled
    (config.AWSSigning_ (config.CommunicationsConfig_ElasticSearch c))
  = true ->
  NewSession = inr sess ->
  aws_signing_client_New (v4_NewSigner (credentials_for c sess)) awsService
    (config.AWSRegion
       (config.AWSSigning_ (config.CommunicationsConfig_ElasticSearch c)))
  = inl err ->
  NewElasticSearch defaults startup' NewSession aws_signing_client_New c
  = Refused err.
Proof.
  intros Hmode Hsess Haws.
  unfold NewElasticSearch, credentials_for in *.
  rewrite Hmode, Hsess.
  destruct (config.RoleArn _ =? "")%string; cbn [negb] in *;
    rewrite Haws; reflexivity.
Qed.

(** An error the constructor returns is the error of the making of the
    signing client, with signing enabled, or the error the library gives
    for the client the constructor has asked for: one for the configured
    address with sniffing and health checks off. *)
Theorem NewElasticSearch_refuses_for_a_cause c err :
  NewElasticSearch defaults startup NewSession aws_signing_client_New c
  = Refused err ->
  let es := config.CommunicationsConfig_ElasticSearch c in
  (config.Enabled (config.AWSSigning_ es) = true
   /\ exists sess,
        NewSession = inr sess
        /\ aws_signing_client_New (v4_NewSigner (credentials_for c sess))
             awsService (config.AWSRegion (config.AWSSigning_ es))
           = inl err)
  \/ (exists cl,
        startup cl = Some err
        /\ urls cl = [config.Server es]
        /\ snifferEnabled cl = false
        /\ healthcheckEnabled cl = false
        /\ gzipEnabled cl = negb (config.Enabled (config.AWSSigning_ es))).
Proof.
  unfold NewElasticSearch, NewClient, credentials_for.
  destruct (config.Enabled _) eqn:Emode.
  - destruct NewSession as [err' | sess]; [discriminate |].
    destruct (config.RoleArn _ =? "")%string; cbn [negb];
      (destruct (aws_signing_client_New _ _ _) as [err' | awsClient] eqn:Eaws;
       [intros [= ->]; left; split; [reflexivity | exists sess; split;
                                                     [reflexivity | exact Eaws]]
       |]);
      (destruct (startup _) as [err' |] eqn:Estart; [| discriminate]);
      intros [= ->]; right; eexists; (split; [exact Estart |]);
      cbn; repeat split.
  - destruct (startup _) as [err' |] eqn:Estart; [| discriminate].
    intros [= ->]; right; eexists; (split; [exact Estart |]);
      cbn; repeat split.
Qed.

(** A notifier the constructor builds has the index name, document type,
    shard count, replica count and cluster label of the configuration, and a
    client the library has accepted.  Its [Server] field is left empty: the
    configured address goes to the client only. *)
Theorem NewElasticSearch_copies_the_configuration c n :
  NewElasticSearch defaults startup NewSession aws_signing_client_New c
  = Built n ->
  let es := config.CommunicationsConfig_ElasticSearch c in
  Index n = config.Name (config.Index_ es)
  /\ Type_ n = config.Type_ (config.Index_ es)
  /\ Shards n = config.Shards (config.Index_ es)
  /\ Replicas n = config.Replicas (config.Index_ es)
  /\ ClusterName n = config.ClusterName (config.Settings_ c)
  /\ Server n = ""
  /\ urls (ELSClient n) = [config.Server es]
  /\ startup (ELSClient n) = None.
Proof.
  unfold NewElasticSearch, NewClient.
  destruct (config.Enabled _).
  - destruct NewSession as [err | sess]; [discriminate |].
    destruct (aws_signing_client_New _ _ _) as [err | awsClient];
      [discriminate |].
    destruct (startup _) eqn:Estart; [discriminate |].
    intros [= <-]; cbn; repeat split; exact Estart.
  - destruct (startup _) eqn:Estart; [discriminate |].
    intros [= <-]; cbn; repeat split; exact Estart.
Qed.

(** ** From the configuration to the wire *)

Lemma Built_from_configuration c n :
  NewElasticSearch defaults startup NewSession aws_signing_client_New c
  = Built n ->
  let es := config.CommunicationsConfig_ElasticSearch c in
  Index n = config.Name (config.Index_ es)
  /\ Type_ n = config.Type_ (config.Index_ es)
  /\ Shards n = config.Shards (config.Index_ es)
  /\ Replicas n = config.Replicas (config.Index_ es)
  /\ ClusterName n = config.ClusterName (config.Settings_ c).
Proof.
  unfold NewElasticSearch.
  destruct (config.Enabled _).
  - destruct NewSession as [err | sess]; [discriminate |].
    destruct (aws_signing_client_New _ _ _) as [err | awsClient];
      [discriminate |].
    destruct (NewClient _ _ _); [discriminate |].
    intros [= <-]; cbn; repeat split.
  - destruct (NewClient _ _ _); [discriminate |].
    intros [= <-]; cbn; repeat split.
Qed.

(** An event sent through a notifier the constructor has built goes to the
    index named by the configured index name and the date, as a document of
    the configured type with the configured cluster label; and an index the
    call creates gets the configured shard and replica counts. *)
Theorem configured_notifier_sends_as_configured c n ev w r reply :
  NewElasticSearch defaults startup NewSession aws_signing_client_New c
  = Built n ->
  In (r, reply) (issued w (SendEvent Error Sprintf_v Do n ev w)) ->
  let es := config.CommunicationsConfig_ElasticSearch c in
  (exists i,
     target r
     = (config.Name (config.Index_ es) ++ "-"
          ++ Format (clock w (reads w + i)) indexSuffixFormat)%string)
  /\ match r with
     | IndexExists _ | Flush _ => True
     | CreateIndex _ m =>
         m = body.mkmapping
               (body.mksettings
                  (body.mkindex (config.Shards (config.Index_ es))
                     (config.Replicas (config.Index_ es))))
     | IndexDoc _ typ doc =>
         typ = config.Type_ (config.Index_ es)
         /\ doc = mkEvent (config.ClusterName (config.Settings_ c))
                    (Fields ev)
     end.
Proof.
  intros Hbuilt.
  destruct (Built_from_configuration c n Hbuilt)
    as (HI & HT & HS & HR & HC).
  cbv zeta; rewrite <- HI, <- HT, <- HS, <- HR, <- HC; clear Hbuilt.
  by_paths n ev w; intros H; in_cases; cbn [target];
    (split; [rewrite name_at_clock; eexists; reflexivity |]);
    try exact I; try reflexivity; split; reflexivity.
Qed.

(** ** One index for each day *)

Lemma append_same_length (a b x y : string) :
  String.length a = String.length b ->
  (a ++ x = b ++ y)%string -> a = b /\ x = y.
Proof.
  revert b; induction a as [|c a IH]; intros [|d b]; cbn;
    try discriminate; [auto |].
  intros [= L] [= -> H]; destruct (IH b L H) as [-> ->]; auto.
Qed.


Lemma appendInt_read_back (width : nat) (bound : Z) :
  forallb (fun k => atoi (appendInt (Z.of_nat k) width) =? Z.of_nat k)
    (seq 0 (Z.to_nat bound)) = true ->
  forall n, 0 <= n < bound -> atoi (appendInt n width) = n.
Proof.
  intros H n Hn.
  pose proof (below_all _ _ H (Z.to_nat n)) as Hk; cbv beta in Hk.
  rewrite Z2Nat.id in Hk by lia.
  apply Z.eqb_eq, Hk; lia.
Qed.

Lemma appendInt_two_digits n :
  0 <= n < 100 ->
  String.length (appendInt n 2) = 2%nat /\ atoi (appendInt n 2) = n.
Proof.
  intros H; split;
    [apply (appendInt_width 2 100) | apply (appendInt_read_back 2 100)];
    first [exact H | vm_compute; reflexivity].
Qed.

Lemma appendInt_four_digits n :
  0 <= n < 10000 ->
  String.length (appendInt n 4) = 4%nat /\ atoi (appendInt n 4) = n.
Proof.
  intros H; split;
    [apply (appendInt_width 4 10000) | apply (appendInt_read_back 4 10000)];
    first [exact H | vm_compute; reflexivity].
Qed.

(** For a date of the calendar the name of the index is the base name, a
    dash, and ten characters more, which are the date: the tens and the units
    of its day, a dash, the tens and the units of its month, a dash, and the
    four digits of its year. *)
Theorem indexName_ends_in_ten_characters base t :
  calendar_date t ->
  indexName base t
  = (base ++ "-"
       ++ String (digit (Day t / 10)) (String (digit (Day t mod 10)) "")
       ++ "-"
       ++ String (digit (Month t / 10)) (String (digit (Month t mod 10)) "")
       ++ "-"
       ++ String (digit (Year t / 1000))
            (String (digit (Year t / 100 mod 10))
               (String (digit (Year t / 10 mod 10))
                  (String (digit (Year t mod 10)) ""))))%string
  /\ String.length (indexName base t) = (String.length base + 11)%nat.
Proof.
  intros C.
  assert (E : indexName base t = (base ++ "-" ++ DD_MM_YYYY t)%string)
    by (unfold indexName; now rewrite (Format_is_DD_MM_YYYY t C)).
  split; [exact E |].
  rewrite E, length_append; cbn; lia.
Qed.

Lemma append_same_end (a b x y : string) :
  String.length x = String.length y ->
  (a ++ x = b ++ y)%string -> a = b /\ x = y.
Proof.
  intros L; revert b; induction a as [|c a IH]; intros [|d b]; cbn.
  - auto.
  - intros ->; cbn in L; rewrite length_append in L; lia.
  - intros <-; cbn in L; rewrite length_append in L; lia.
  - intros [= -> H]; destruct (IH b H) as [-> ->]; auto.
Qed.

(** An index name tells its base name and its day: two base names and two
    dates of the calendar give the same index name only when the base names
    are the same and the dates are the same.  So the events of different
    days go to different indices, and sinks with different base names never
    share an index. *)
Theorem indexName_tells_base_and_day_apart base1 t1 base2 t2 :
  calendar_date t1 -> calendar_date t2 ->
  indexName base1 t1 = indexName base2 t2 ->
  base1 = base2 /\ t1 = t2.
Proof.
  intros (Hd1 & Hm1 & Hy1) (Hd2 & Hm2 & Hy2) H.
  unfold indexName in H.
  assert (W2 : forall n, 0 <= n < 100 ->
                 String.length (appendInt n 2) = 2%nat)
    by (intros; now apply appendInt_two_digits).
  assert (W4 : forall n, 0 <= n < 10000 ->
                 String.length (appendInt n 4) = 4%nat)
    by (intros; now apply appendInt_four_digits).
  assert (R2 : forall n, 0 <= n < 100 -> atoi (appendInt n 2) = n)
    by (intros; now apply appendInt_two_digits).
  assert (R4 : forall n, 0 <= n < 10000 -> atoi (appendInt n 4) = n)
    by (intros; now apply appendInt_four_digits).
  rewrite !Format_indexSuffixFormat in H.
  apply append_same_end in H;
    [| repeat (cbn [String.length append]; rewrite ?length_append);
       rewrite !W2, !W4 by lia; reflexivity].
  destruct H as [-> H]; split; [reflexivity |].
  injection H as H.
  apply append_same_length in H; [| rewrite !W2 by lia; reflexivity].
  destruct H as [D H]; injection H as H.
  apply append_same_length in H; [| rewrite !W2 by lia; reflexivity].
  destruct H as [M H]; injection H as Y.
  apply (f_equal atoi) in D, M, Y.
  rewrite !R2 in D, M by lia; rewrite !R4 in Y by lia.
  destruct t1, t2; cbn in *; congruence.
Qed.

(** ** An index is created once *)

Lemma served_keeps_index name c b xs b' :
  store_keeps_indices Do ->
  index_there Do name b -> served Do c b xs b' -> index_there Do name b'.
Proof.
  intros K T S; induction S as [| b r reply b1 xs b2 E _ IH]; [exact T |].
  apply IH; exact (K _ _ _ _ _ _ T E).
Qed.

Lemma served_create_makes_index name m x c b xs b' :
  store_keeps_indices Do -> create_makes_index Do ->
  In (CreateIndex name m, Done x) xs ->
  served Do c b xs b' -> index_there Do name b'.
Proof.
  intros K C HIn S; induction S as [| b r reply b1 xs b2 E S IH];
    [destruct HIn |].
  destruct HIn as [[= -> ->] | HIn]; [| exact (IH HIn)].
  exact (served_keeps_index _ _ _ _ _ K (C _ _ _ _ _ _ E) S).
Qed.

Lemma wire_served e ev w :
  served Do (ELSClient e) (backend w)
    (issued w (SendEvent Error Sprintf_v Do e ev w))
    (backend (after (SendEvent Error Sprintf_v Do e ev w))).
Proof.
  unfold_body; repeat split_reply;
    unfold issued; cbn;
    rewrite <- ?app_assoc; rewrite ?skipn_length_app; cbn;
    repeat (eapply served_next; [eassumption |]);
    apply served_none.
Qed.

Lemma no_create_when_index_there e ev w :
  index_there Do (indexName (Index e) (clock w (reads w))) (backend w) ->
  count is_create (requests w (SendEvent Error Sprintf_v Do e ev w)) = 0%nat.
Proof.
  intros T; pose proof (wire_served e ev w) as S; revert S.
  by_paths e ev w; intros S; try reflexivity;
    inversion S as [| ? ? ? ? ? ? E _]; subst;
    unfold name_at in E; cbn [Nat.add] in E;
    discriminate (T _ _ _ E).
Qed.

(** Over a store that does not lose indices: when the index of the day is
    there, a call does not send a create request, whatever else happens in
    the call, and the index is still there after the call. *)
Theorem SendEvent_does_not_create_what_is_there e ev w :
  let o := SendEvent Error Sprintf_v Do e ev w in
  store_keeps_indices Do ->
  index_there Do (indexName (Index e) (clock w (reads w))) (backend w) ->
  count is_create (requests w o) = 0%nat
  /\ index_there Do (indexName (Index e) (clock w (reads w)))
       (backend (after o)).
Proof.
  intros o K T; subst o; split.
  - exact (no_create_when_index_there e ev w T).
  - exact (served_keeps_index _ _ _ _ _ K T (wire_served e ev w)).
Qed.

(** Over a store that does not lose indices and has an index once its
    creation has succeeded: when a call has created the index, the next
    call on the same day does not create it again, even when the first call
    has failed after the creation. *)
Theorem SendEvent_creates_for_the_next_call e ev ev' w name :
  let o := SendEvent Error Sprintf_v Do e ev w in
  let o' := SendEvent Error Sprintf_v Do e ev' (after o) in
  store_keeps_indices Do -> create_makes_index Do ->
  (forall i, indexName (Index e) (clock w i) = name) ->
  (exists n m x, In (CreateIndex n m, Done x) (issued w o)) ->
  count is_create (requests (after o) o') = 0%nat.
Proof.
  intros o o' K C Hday (n & m & x & HIn); subst o o'.
  apply no_create_when_index_there.
  destruct (SendEvent_takes_a_path e ev w) as (_ & _ & _ & _ & _ & HC).
  rewrite HC, Hday.
  assert (n = name) as ->.
  { revert HIn; by_paths e ev w; intros HIn; in_cases;
      unfold name_at; apply Hday. }
  exact (served_create_makes_index _ _ _ _ _ _ _ K C HIn (wire_served e ev w)).
Qed.

End Properties.

(** ** Runs *)

Example chunks_indexSuffixFormat :
  chunks indexSuffixFormat =
  [stdZeroDay; literal "-"; stdZeroMonth; literal "-"; stdLongYear].
Proof. reflexivity. Qed.

Example Format_2024_03_07 :
  Format (mkTime 2024 3 7) indexSuffixFormat = "07-03-2024".
Proof. reflexivity. Qed.

(** A fresh index: check, create, write, flush, in that order. *)
Example send_to_fresh :
  requests (Fake.world Fake.steady Fake.fresh)
    (Fake.send Fake.sink Fake.an_event (Fake.world Fake.steady Fake.fresh))
  = [IndexExists "k8sevents-07-03-2024";
     CreateIndex "k8sevents-07-03-2024"
       (body.mkmapping (body.mksettings (body.mkindex 5 1)));
     IndexDoc "k8sevents-07-03-2024" "doc" (mkEvent "production" "pod created");
     Flush "k8sevents-07-03-2024"].
Proof. reflexivity. Qed.

(** An index that exists: check, write, flush. *)
Example send_to_existing :
  requests (Fake.world Fake.steady Fake.existing)
    (Fake.send Fake.sink Fake.an_event (Fake.world Fake.steady Fake.existing))
  = [IndexExists "k8sevents-07-03-2024";
     IndexDoc "k8sevents-07-03-2024" "doc" (mkEvent "production" "pod created");
     Flush "k8sevents-07-03-2024"].
Proof. reflexivity. Qed.

(** A call over midnight: the index checked and created is that of the old
    day, the index written and flushed that of the new one. *)
Example send_over_midnight :
  map target
    (requests (Fake.world Fake.rollover Fake.fresh)
       (Fake.send Fake.sink Fake.an_event
          (Fake.world Fake.rollover Fake.fresh)))
  = ["k8sevents-31-12-2023"; "k8sevents-31-12-2023";
     "k8sevents-01-01-2024"; "k8sevents-01-01-2024"].
Proof. reflexivity. Qed.

(** ** The theorems at work on the store *)

Lemma SendEvent_creates_once_and_first_witness :
  (In (IndexExists "k8sevents-07-03-2024", Done false)
      (issued (Fake.world Fake.steady Fake.fresh)
         (Fake.send Fake.sink Fake.an_event
            (Fake.world Fake.steady Fake.fresh)))
   /\ count is_create
        (requests (Fake.world Fake.steady Fake.fresh)
           (Fake.send Fake.sink Fake.an_event
              (Fake.world Fake.steady Fake.fresh))) = 1%nat)
  /\ (In (IndexExists "k8sevents-07-03-2024", Done true)
        (issued (Fake.world Fake.steady Fake.existing)
           (Fake.send Fake.sink Fake.an_event
              (Fake.world Fake.steady Fake.existing)))
      /\ count is_create
           (requests (Fake.world Fake.steady Fake.existing)
              (Fake.send Fake.sink Fake.an_event
                 (Fake.world Fake.steady Fake.existing))) = 0%nat).
Proof.
  assert (H1 : In (IndexExists "k8sevents-07-03-2024", Done false)
                 (issued (Fake.world Fake.steady Fake.fresh)
                    (Fake.send Fake.sink Fake.an_event
                       (Fake.world Fake.steady Fake.fresh))))
    by (vm_compute; left; reflexivity).
  assert (H2 : In (IndexExists "k8sevents-07-03-2024", Done true)
                 (issued (Fake.world Fake.steady Fake.existing)
                    (Fake.send Fake.sink Fake.an_event
                       (Fake.world Fake.steady Fake.existing))))
    by (vm_compute; left; reflexivity).
  split; (split; [assumption |]).
  - exact (proj1 (proj1 (SendEvent_creates_once_and_first
                           _ Fake.Error _ _ Fake.Sprintf_v _ Fake.Do
                           Fake.sink Fake.an_event
                           (Fake.world Fake.steady Fake.fresh)) _ H1)).
  - exact (proj2 (SendEvent_creates_once_and_first
                    _ Fake.Error _ _ Fake.Sprintf_v _ Fake.Do
                    Fake.sink Fake.an_event
                    (Fake.world Fake.steady Fake.existing)) _ H2).
Defined.

Lemma SendEvent_names_each_request_from_the_clock_witness :
  (nth_error
     (requests (Fake.world Fake.rollover Fake.fresh)
        (Fake.send Fake.sink Fake.an_event
           (Fake.world Fake.rollover Fake.fresh))) 2
   = Some (IndexDoc "k8sevents-01-01-2024" "doc"
             (mkEvent "production" "pod created"))
   /\ calendar_date (Fake.rollover 2))
  /\ "k8sevents-01-01-2024"
     = ("k8sevents" ++ "-" ++ two_digits 1 ++ "-" ++ two_digits 1 ++ "-"
          ++ four_digits 2024)%string.
Proof.
  assert (H : nth_error
                (requests (Fake.world Fake.rollover Fake.fresh)
                   (Fake.send Fake.sink Fake.an_event
                      (Fake.world Fake.rollover Fake.fresh))) 2
              = Some (IndexDoc "k8sevents-01-01-2024" "doc"
                        (mkEvent "production" "pod created")))
    by reflexivity.
  assert (C : calendar_date (Fake.rollover 2))
    by (unfold calendar_date; simpl; lia).
  split; [split; assumption |].
  exact (proj1 (proj2 (SendEvent_names_each_request_from_the_clock
                         _ Fake.Error _ _ Fake.Sprintf_v _ Fake.Do
                         Fake.sink Fake.an_event
                         (Fake.world Fake.rollover Fake.fresh)))
           2%nat _ H C).
Defined.

Lemma SendEvent_writes_the_sink_cluster_witness :
  In (IndexDoc "k8sevents-07-03-2024" "doc"
        (mkEvent "production" "pod created"), Done true)
     (issued (Fake.world Fake.steady Fake.existing)
        (Fake.send Fake.sink Fake.an_event
           (Fake.world Fake.steady Fake.existing)))
  /\ Cluster (mkEvent "production" "pod created")
     = ClusterName Fake.sink.
Proof.
  assert (H : In (IndexDoc "k8sevents-07-03-2024" "doc"
                    (mkEvent "production" "pod created"), Done true)
                (issued (Fake.world Fake.steady Fake.existing)
                   (Fake.send Fake.sink Fake.an_event
                      (Fake.world Fake.steady Fake.existing))))
    by (vm_compute; right; left; reflexivity).
  split; [assumption |].
  exact (proj1 (SendEvent_writes_the_sink_cluster
                  _ Fake.Error _ _ Fake.Sprintf_v _ Fake.Do
                  Fake.sink Fake.an_event
                  (Fake.world Fake.steady Fake.existing) _ _ _ _ H)).
Defined.

Lemma SendEvent_stops_at_failed_check_witness :
  In (IndexExists "k8sevents-07-03-2024", Failed "EOF")
     (issued (Fake.world Fake.steady (Fake.failing ExistenceCheck Fake.fresh))
        (Fake.send Fake.sink Fake.an_event
           (Fake.world Fake.steady (Fake.failing ExistenceCheck Fake.fresh))))
  /\ requests (Fake.world Fake.steady (Fake.failing ExistenceCheck Fake.fresh))
       (Fake.send Fake.sink Fake.an_event
          (Fake.world Fake.steady (Fake.failing ExistenceCheck Fake.fresh)))
     = [IndexExists "k8sevents-07-03-2024"]
  /\ returned
       (Fake.send Fake.sink Fake.an_event
          (Fake.world Fake.steady (Fake.failing ExistenceCheck Fake.fresh)))
     = Some "EOF".
Proof.
  assert (H : In (IndexExists "k8sevents-07-03-2024", Failed "EOF")
                (issued
                   (Fake.world Fake.steady
                      (Fake.failing ExistenceCheck Fake.fresh))
                   (Fake.send Fake.sink Fake.an_event
                      (Fake.world Fake.steady
                         (Fake.failing ExistenceCheck Fake.fresh)))))
    by (vm_compute; left; reflexivity).
  split; [assumption |].
  pose proof (SendEvent_stops_at_failed_check
                _ Fake.Error _ _ Fake.Sprintf_v _ Fake.Do
                Fake.sink Fake.an_event
                (Fake.world Fake.steady
                   (Fake.failing ExistenceCheck Fake.fresh)) _ _ H)
    as (Hr & _ & _ & _ & Hret).
  split; assumption.
Defined.

Lemma SendEvent_does_not_flush_a_failed_write_witness :
  In (IndexDoc "k8sevents-07-03-2024" "doc"
        (mkEvent "production" "pod created"), Failed "EOF")
     (issued (Fake.world Fake.steady (Fake.failing Write Fake.fresh))
        (Fake.send Fake.sink Fake.an_event
           (Fake.world Fake.steady (Fake.failing Write Fake.fresh))))
  /\ count is_flush
       (requests (Fake.world Fake.steady (Fake.failing Write Fake.fresh))
          (Fake.send Fake.sink Fake.an_event
             (Fake.world Fake.steady (Fake.failing Write Fake.fresh))))
     = 0%nat
  /\ returned
       (Fake.send Fake.sink Fake.an_event
          (Fake.world Fake.steady (Fake.failing Write Fake.fresh)))
     = Some "EOF".
Proof.
  assert (H : In (IndexDoc "k8sevents-07-03-2024" "doc"
                    (mkEvent "production" "pod created"), Failed "EOF")
                (issued
                   (Fake.world Fake.steady (Fake.failing Write Fake.fresh))
                   (Fake.send Fake.sink Fake.an_event
                      (Fake.world Fake.steady
                         (Fake.failing Write Fake.fresh)))))
    by (vm_compute; right; right; left; reflexivity).
  split; [assumption |].
  exact (SendEvent_does_not_flush_a_failed_write
           _ Fake.Error _ _ Fake.Sprintf_v _ Fake.Do
           Fake.sink Fake.an_event
           (Fake.world Fake.steady (Fake.failing Write Fake.fresh)) _ _ _ _ H).
Defined.

Lemma SendEvent_shape_travels_with_create_only_witness :
  (In (CreateIndex "k8sevents-07-03-2024"
         (body.mkmapping (body.mksettings (body.mkindex 5 1))), Done true)
      (issued (Fake.world Fake.steady Fake.fresh)
         (Fake.send Fake.sink Fake.an_event
            (Fake.world Fake.steady Fake.fresh)))
   /\ body.mapping_json
        (body.mkmapping (body.mksettings (body.mkindex 5 1)))
      = JObject
          [("settings",
            JObject
              [("index",
                JObject [("number_of_shards", JNumber 5);
                         ("number_of_replicas", JNumber 1)])])])
  /\ (In (Flush "k8sevents-07-03-2024")
        (requests (Fake.world Fake.steady Fake.fresh)
           (Fake.send Fake.sink Fake.an_event
              (Fake.world Fake.steady Fake.fresh)))
      /\ shape (Flush (EventFields := Fake.EventFields)
                  "k8sevents-07-03-2024") = None)
  /\ (In (IndexExists "k8sevents-07-03-2024", Done true)
        (issued (Fake.world Fake.steady Fake.existing)
           (Fake.send Fake.sink Fake.an_event
              (Fake.world Fake.steady Fake.existing)))
      /\ shape (IndexDoc "k8sevents-07-03-2024" "doc"
                  (mkEvent "production" "pod created")) = None).
Proof.
  pose proof (SendEvent_shape_travels_with_create_only
                _ Fake.Error _ _ Fake.Sprintf_v _ Fake.Do
                Fake.sink Fake.an_event
                (Fake.world Fake.steady Fake.fresh)) as (P1 & P2 & _).
  pose proof (SendEvent_shape_travels_with_create_only
                _ Fake.Error _ _ Fake.Sprintf_v _ Fake.Do
                Fake.sink Fake.an_event
                (Fake.world Fake.steady Fake.existing)) as (_ & _ & P3).
  assert (H1 : In (CreateIndex "k8sevents-07-03-2024"
                     (body.mkmapping (body.mksettings (body.mkindex 5 1))),
                   Done true)
                 (issued (Fake.world Fake.steady Fake.fresh)
                    (Fake.send Fake.sink Fake.an_event
                       (Fake.world Fake.steady Fake.fresh))))
    by (vm_compute; right; left; reflexivity).
  assert (H2 : In (Flush "k8sevents-07-03-2024")
                 (requests (Fake.world Fake.steady Fake.fresh)
                    (Fake.send Fake.sink Fake.an_event
                       (Fake.world Fake.steady Fake.fresh))))
    by (vm_compute; right; right; right; left; reflexivity).
  assert (H3 : In (IndexExists "k8sevents-07-03-2024", Done true)
                 (issued (Fake.world Fake.steady Fake.existing)
                    (Fake.send Fake.sink Fake.an_event
                       (Fake.world Fake.steady Fake.existing))))
    by (vm_compute; left; reflexivity).
  assert (H4 : In (IndexDoc "k8sevents-07-03-2024" "doc"
                     (mkEvent "production" "pod created"))
                 (requests (Fake.world Fake.steady Fake.existing)
                    (Fake.send Fake.sink Fake.an_event
                       (Fake.world Fake.steady Fake.existing))))
    by (vm_compute; right; left; reflexivity).
  split; [split; [assumption | exact (proj2 (P1 _ _ _ H1 eq_refl))] |].
  split; [split; [assumption | exact (P2 _ H2 eq_refl)] |].
  split; [assumption | exact (P3 _ _ H3 H4)].
Defined.

Lemma SendEvent_passes_the_error_on_witness :
  (In (Flush "k8sevents-07-03-2024", Failed "EOF")
      (issued (Fake.world Fake.steady (Fake.failing FlushTarget Fake.fresh))
         (Fake.send Fake.sink Fake.an_event
            (Fake.world Fake.steady (Fake.failing FlushTarget Fake.fresh))))
   /\ returned
        (Fake.send Fake.sink Fake.an_event
           (Fake.world Fake.steady (Fake.failing FlushTarget Fake.fresh)))
      = Some "EOF"
   /\ logged (Fake.world Fake.steady (Fake.failing FlushTarget Fake.fresh))
        (Fake.send Fake.sink Fake.an_event
           (Fake.world Fake.steady (Fake.failing FlushTarget Fake.fresh)))
      = [(DebugLevel,
          ">> Sending to ElasticSearch: {Cluster:staging Message:pod created}");
         (ErrorLevel, "Failed to flush data to els. Error:EOF")])
  /\ (returned
        (Fake.send Fake.sink Fake.an_event
           (Fake.world Fake.steady (Fake.failing CreateTarget Fake.fresh)))
      = Some "EOF"
      /\ exists r,
           In (r, Failed "EOF")
              (issued
                 (Fake.world Fake.steady
                    (Fake.failing CreateTarget Fake.fresh))
                 (Fake.send Fake.sink Fake.an_event
                    (Fake.world Fake.steady
                       (Fake.failing CreateTarget Fake.fresh))))).
Proof.
  pose proof (SendEvent_passes_the_error_on
                _ Fake.Error _ _ Fake.Sprintf_v _ Fake.Do
                Fake.sink Fake.an_event
                (Fake.world Fake.steady
                   (Fake.failing FlushTarget Fake.fresh))) as (P1 & _).
  pose proof (SendEvent_passes_the_error_on
                _ Fake.Error _ _ Fake.Sprintf_v _ Fake.Do
                Fake.sink Fake.an_event
                (Fake.world Fake.steady
                   (Fake.failing CreateTarget Fake.fresh))) as (_ & P2).
  assert (H1 : In (Flush "k8sevents-07-03-2024", Failed "EOF")
                 (issued
                    (Fake.world Fake.steady
                       (Fake.failing FlushTarget Fake.fresh))
                    (Fake.send Fake.sink Fake.an_event
                       (Fake.world Fake.steady
                          (Fake.failing FlushTarget Fake.fresh)))))
    by (vm_compute; right; right; right; left; reflexivity).
  assert (H2 : returned
                 (Fake.send Fake.sink Fake.an_event
                    (Fake.world Fake.steady
                       (Fake.failing CreateTarget Fake.fresh)))
               = Some "EOF")
    by reflexivity.
  destruct (P1 _ _ H1) as (Hret & _ & _ & Hlog).
  split; [split; [assumption | split; [exact Hret | exact Hlog]] |].
  split; [assumption | exact (P2 _ H2)].
Defined.

Lemma SendEvent_leaves_sink_and_event_witness :
  In (IndexDoc "k8sevents-07-03-2024" "doc"
        (mkEvent "production" "pod created"), Done true)
     (issued (Fake.world Fake.steady Fake.existing)
        (Fake.send Fake.sink Fake.an_event
           (Fake.world Fake.steady Fake.existing)))
  /\ receiver
       (Fake.send Fake.sink Fake.an_event
          (Fake.world Fake.steady Fake.existing)) = Fake.sink
  /\ mkEvent "production" "pod created"
     = parameter
         (Fake.send Fake.sink Fake.an_event
            (Fake.world Fake.steady Fake.existing)).
Proof.
  pose proof (SendEvent_leaves_sink_and_event
                _ Fake.Error _ _ Fake.Sprintf_v _ Fake.Do
                Fake.sink Fake.an_event
                (Fake.world Fake.steady Fake.existing))
    as (P1 & _ & _ & P2 & _).
  assert (H : In (IndexDoc "k8sevents-07-03-2024" "doc"
                    (mkEvent "production" "pod created"), Done true)
                (issued (Fake.world Fake.steady Fake.existing)
                   (Fake.send Fake.sink Fake.an_event
                      (Fake.world Fake.steady Fake.existing))))
    by (vm_compute; right; left; reflexivity).
  split; [assumption | split; [exact P1 | exact (P2 _ _ _ _ H)]].
Defined.

Lemma NewElasticSearch_sets_the_client_by_mode_witness :
  (Fake.construct Fake.basic_config
   = Built (mkElasticSearch
              (mkClient ["http://els:9200"] "http" Fake.plain
                 "elastic" "changeme" false false true)
              "" "k8sevents" 5 1 "doc" "production")
   /\ gzipEnabled
        (mkClient ["http://els:9200"] "http" Fake.plain
           "elastic" "changeme" false false true) = true)
  /\ (Fake.construct Fake.signed_config
      = Built (mkElasticSearch
                 (mkClient ["https://search.example"] "https"
                    (Fake.signing "es" "eu-west-1") "" "" false false false)
                 "" "k8sevents" 5 1 "doc" "production")
      /\ gzipEnabled
           (mkClient ["https://search.example"] "https"
              (Fake.signing "es" "eu-west-1") "" "" false false false)
         = false).
Proof.
  assert (H1 : Fake.construct Fake.basic_config
               = Built (mkElasticSearch
                          (mkClient ["http://els:9200"] "http" Fake.plain
                             "elastic" "changeme" false false true)
                          "" "k8sevents" 5 1 "doc" "production"))
    by reflexivity.
  assert (H2 : Fake.construct Fake.signed_config
               = Built (mkElasticSearch
                          (mkClient ["https://search.example"] "https"
                             (Fake.signing "es" "eu-west-1") "" ""
                             false false false)
                          "" "k8sevents" 5 1 "doc" "production"))
    by reflexivity.
  split; (split; [assumption |]).
  - pose proof (NewElasticSearch_sets_the_client_by_mode
                  _ _ _ _ _ _ _ _ _ H1) as (_ & _ & _ & P).
    exact (proj1 P).
  - pose proof (NewElasticSearch_sets_the_client_by_mode
                  _ _ _ _ _ _ _ _ _ H2) as (_ & _ & _ & P).
    exact (proj1 P).
Defined.

(** ** The error returned names no step

    Against C7 as it is written.  The existence check failing with [EOF] and the write failing with [EOF]
    make the call return the same value, the error [EOF] itself: nothing in
    what is returned tells the two steps apart, so no category can be read
    off it. *)
Lemma returned_error_names_no_step :
  returned
    (Fake.send Fake.sink Fake.an_event
       (Fake.world Fake.steady (Fake.failing ExistenceCheck Fake.fresh)))
  = Some "EOF"
  /\ returned
       (Fake.send Fake.sink Fake.an_event
          (Fake.world Fake.steady (Fake.failing Write Fake.fresh)))
     = Some "EOF"
  /\ ~ (exists category,
          wraps_in_category Fake.Error Fake.Sprintf_v Fake.Do category).
Proof.
  split; [reflexivity | split; [reflexivity |]].
  intros [category H].
  destruct (H Fake.sink Fake.an_event
              (Fake.world Fake.steady (Fake.failing ExistenceCheck Fake.fresh))
              (IndexExists "k8sevents-07-03-2024") "EOF")
    as (err1 & R1 & C1); [vm_compute; left; reflexivity |].
  destruct (H Fake.sink Fake.an_event
              (Fake.world Fake.steady (Fake.failing Write Fake.fresh))
              (IndexDoc "k8sevents-07-03-2024" "doc"
                 (mkEvent "production" "pod created")) "EOF")
    as (err2 & R2 & C2); [vm_compute; right; right; left; reflexivity |].
  vm_compute in R1, R2.
  injection R1 as <-; injection R2 as <-.
  cbn in C1, C2; congruence.
Qed.

(** ** More runs on the store *)

Lemma SendEvent_stops_at_failed_create_witness :
  In (CreateIndex "k8sevents-07-03-2024"
        (body.mkmapping (body.mksettings (body.mkindex 5 1))), Failed "EOF")
     (issued (Fake.world Fake.steady (Fake.failing CreateTarget Fake.fresh))
        (Fake.send Fake.sink Fake.an_event
           (Fake.world Fake.steady (Fake.failing CreateTarget Fake.fresh))))
  /\ count is_write
       (requests (Fake.world Fake.steady (Fake.failing CreateTarget Fake.fresh))
          (Fake.send Fake.sink Fake.an_event
             (Fake.world Fake.steady (Fake.failing CreateTarget Fake.fresh))))
     = 0%nat
  /\ returned
       (Fake.send Fake.sink Fake.an_event
          (Fake.world Fake.steady (Fake.failing CreateTarget Fake.fresh)))
     = Some "EOF".
Proof.
  assert (H : In (CreateIndex "k8sevents-07-03-2024"
                    (body.mkmapping (body.mksettings (body.mkindex 5 1))),
                  Failed "EOF")
                (issued
                   (Fake.world Fake.steady
                      (Fake.failing CreateTarget Fake.fresh))
                   (Fake.send Fake.sink Fake.an_event
                      (Fake.world Fake.steady
                         (Fake.failing CreateTarget Fake.fresh)))))
    by (vm_compute; right; left; reflexivity).
  split; [assumption |].
  pose proof (SendEvent_stops_at_failed_create
                _ Fake.Error _ _ Fake.Sprintf_v _ Fake.Do
                Fake.sink Fake.an_event
                (Fake.world Fake.steady
                   (Fake.failing CreateTarget Fake.fresh)) _ _ _ H)
    as (_ & Hw & _ & Hret).
  split; assumption.
Defined.

Lemma SendEvent_failed_flush_follows_the_write_witness :
  In (Flush "k8sevents-07-03-2024", Failed "EOF")
     (issued (Fake.world Fake.steady (Fake.failing FlushTarget Fake.existing))
        (Fake.send Fake.sink Fake.an_event
           (Fake.world Fake.steady (Fake.failing FlushTarget Fake.existing))))
  /\ returned
       (Fake.send Fake.sink Fake.an_event
          (Fake.world Fake.steady (Fake.failing FlushTarget Fake.existing)))
     = Some "EOF".
Proof.
  assert (H : In (Flush "k8sevents-07-03-2024", Failed "EOF")
                (issued
                   (Fake.world Fake.steady
                      (Fake.failing FlushTarget Fake.existing))
                   (Fake.send Fake.sink Fake.an_event
                      (Fake.world Fake.steady
                         (Fake.failing FlushTarget Fake.existing)))))
    by (vm_compute; right; right; left; reflexivity).
  split; [assumption |].
  exact (proj1 (SendEvent_failed_flush_follows_the_write
                  _ Fake.Error _ _ Fake.Sprintf_v _ Fake.Do
                  Fake.sink Fake.an_event
                  (Fake.world Fake.steady
                     (Fake.failing FlushTarget Fake.existing)) _ _ H)).
Defined.

Lemma SendEvent_succeeds_iff_nothing_failed_witness :
  returned
    (Fake.send Fake.sink Fake.an_event (Fake.world Fake.steady Fake.existing))
  = None
  /\ exists pre n b n' b',
       issued (Fake.world Fake.steady Fake.existing)
         (Fake.send Fake.sink Fake.an_event
            (Fake.world Fake.steady Fake.existing))
       = (pre ++ [(IndexDoc n (Type_ Fake.sink)
                     (mkEvent (ClusterName Fake.sink)
                        (Fields Fake.an_event)), Done b);
                  (Flush n', Done b')])%list.
Proof.
  assert (H : returned
                (Fake.send Fake.sink Fake.an_event
                   (Fake.world Fake.steady Fake.existing)) = None)
    by reflexivity.
  split; [assumption |].
  exact (proj2 (SendEvent_succeeds_iff_nothing_failed
                  _ Fake.Error _ _ Fake.Sprintf_v _ Fake.Do
                  Fake.sink Fake.an_event
                  (Fake.world Fake.steady Fake.existing)) H).
Defined.

Lemma SendEvent_closing_message_reads_the_clock_again_witness :
  returned
    (Fake.send Fake.sink Fake.an_event (Fake.world Fake.rollover Fake.fresh))
  = None
  /\ logged (Fake.world Fake.rollover Fake.fresh)
       (Fake.send Fake.sink Fake.an_event
          (Fake.world Fake.rollover Fake.fresh))
     = [(DebugLevel,
         ">> Sending to ElasticSearch: {Cluster:staging Message:pod created}");
        (DebugLevel,
         "Event successfully sent to ElasticSearch index k8sevents-01-01-2024")].
Proof.
  assert (H : returned
                (Fake.send Fake.sink Fake.an_event
                   (Fake.world Fake.rollover Fake.fresh)) = None)
    by reflexivity.
  split; [assumption |].
  exact (SendEvent_closing_message_reads_the_clock_again
           _ Fake.Error _ _ Fake.Sprintf_v _ Fake.Do
           Fake.sink Fake.an_event
           (Fake.world Fake.rollover Fake.fresh) H).
Defined.

Lemma NewElasticSearch_basic_mode_leaves_AWS_alone_witness :
  config.Enabled
    (config.AWSSigning_
       (config.CommunicationsConfig_ElasticSearch Fake.basic_config))
  = false
  /\ NewElasticSearch Fake.defaults Fake.startup
       (inl "no credentials" : Fake.error + unit)
       (fun _ _ _ => inl "no signer") Fake.basic_config
     = Fake.construct Fake.basic_config.
Proof.
  assert (H : config.Enabled
                (config.AWSSigning_
                   (config.CommunicationsConfig_ElasticSearch
                      Fake.basic_config)) = false)
    by reflexivity.
  split; [assumption |].
  exact (proj1 (NewElasticSearch_basic_mode_leaves_AWS_alone
                  _ _ Fake.defaults Fake.startup _ Fake.NewSession
                  Fake.aws_signing_client_New Fake.basic_config
                  unit (inl "no credentials") (fun _ _ _ => inl "no signer")
                  H)).
Defined.

Lemma NewElasticSearch_returns_the_signing_error_witness :
  Fake.construct signed_config_without_region = Refused "region not set".
Proof.
  apply (NewElasticSearch_returns_the_signing_error
           _ _ Fake.defaults _ Fake.NewSession Fake.aws_signing_client_New
           signed_config_without_region tt "region not set" Fake.startup);
    reflexivity.
Defined.

Lemma NewElasticSearch_refuses_for_a_cause_witness :
  Fake.construct signed_config_without_region = Refused "region not set"
  /\ ((config.Enabled
         (config.AWSSigning_
            (config.CommunicationsConfig_ElasticSearch
               signed_config_without_region)) = true
       /\ exists sess,
            Fake.NewSession = inr sess
            /\ Fake.aws_signing_client_New
                 (v4_NewSigner
                    (credentials_for signed_config_without_region sess))
                 awsService
                 (config.AWSRegion
                    (config.AWSSigning_
                       (config.CommunicationsConfig_ElasticSearch
                          signed_config_without_region)))
               = inl "region not set")
      \/ (exists cl,
            Fake.startup cl = Some "region not set"
            /\ urls cl
               = [config.Server
                    (config.CommunicationsConfig_ElasticSearch
                       signed_config_without_region)]
            /\ snifferEnabled cl = false
            /\ healthcheckEnabled cl = false
            /\ gzipEnabled cl
               = negb
                   (config.Enabled
                      (config.AWSSigning_
                         (config.CommunicationsConfig_ElasticSearch
                            signed_config_without_region))))).
Proof.
  assert (H : Fake.construct signed_config_without_region
              = Refused "region not set")
    by reflexivity.
  split; [assumption |].
  exact (NewElasticSearch_refuses_for_a_cause
           _ _ Fake.defaults Fake.startup _ Fake.NewSession
           Fake.aws_signing_client_New signed_config_without_region _ H).
Defined.

Lemma NewElasticSearch_copies_the_configuration_witness :
  Fake.construct Fake.basic_config
  = Built (mkElasticSearch
             (mkClient ["http://els:9200"] "http" Fake.plain
                "elastic" "changeme" false false true)
             "" "k8sevents" 5 1 "doc" "production")
  /\ Server
       (mkElasticSearch
          (mkClient ["http://els:9200"] "http" Fake.plain
             "elastic" "changeme" false false true)
          "" "k8sevents" 5 1 "doc" "production") = "".
Proof.
  assert (H : Fake.construct Fake.basic_config
              = Built (mkElasticSearch
                         (mkClient ["http://els:9200"] "http" Fake.plain
                            "elastic" "changeme" false false true)
                         "" "k8sevents" 5 1 "doc" "production"))
    by reflexivity.
  split; [assumption |].
  pose proof (NewElasticSearch_copies_the_configuration
                _ _ Fake.defaults Fake.startup _ Fake.NewSession
                Fake.aws_signing_client_New Fake.basic_config _ H)
    as (_ & _ & _ & _ & _ & P & _).
  exact P.
Defined.

Lemma configured_notifier_sends_as_configured_witness :
  Fake.construct Fake.basic_config
  = Built (mkElasticSearch
             (mkClient ["http://els:9200"] "http" Fake.plain
                "elastic" "changeme" false false true)
             "" "k8sevents" 5 1 "doc" "production")
  /\ In (IndexDoc "k8sevents-07-03-2024" "doc"
           (mkEvent "production" "pod created"), Done true)
        (issued (Fake.world Fake.steady Fake.fresh)
           (Fake.send
              (mkElasticSearch
                 (mkClient ["http://els:9200"] "http" Fake.plain
                    "elastic" "changeme" false false true)
                 "" "k8sevents" 5 1 "doc" "production")
              Fake.an_event (Fake.world Fake.steady Fake.fresh)))
  /\ "doc" = config.Type_
               (config.Index_
                  (config.CommunicationsConfig_ElasticSearch
                     Fake.basic_config)).
Proof.
  assert (H : Fake.construct Fake.basic_config
              = Built (mkElasticSearch
                         (mkClient ["http://els:9200"] "http" Fake.plain
                            "elastic" "changeme" false false true)
                         "" "k8sevents" 5 1 "doc" "production"))
    by reflexivity.
  assert (HIn : In (IndexDoc "k8sevents-07-03-2024" "doc"
                      (mkEvent "production" "pod created"), Done true)
                  (issued (Fake.world Fake.steady Fake.fresh)
                     (Fake.send
                        (mkElasticSearch
                           (mkClient ["http://els:9200"] "http" Fake.plain
                              "elastic" "changeme" false false true)
                           "" "k8sevents" 5 1 "doc" "production")
                        Fake.an_event (Fake.world Fake.steady Fake.fresh))))
    by (vm_compute; right; right; left; reflexivity).
  split; [assumption | split; [assumption |]].
  pose proof (configured_notifier_sends_as_configured
                _ Fake.Error _ Fake.defaults Fake.startup _ Fake.NewSession
                Fake.aws_signing_client_New _ Fake.Sprintf_v _ Fake.Do
                Fake.basic_config _ Fake.an_event
                (Fake.world Fake.steady Fake.fresh) _ _ H HIn)
    as (_ & P & _).
  exact P.
Defined.

Lemma indexName_tells_base_and_day_apart_witness :
  calendar_date (mkTime 2024 3 7)
  /\ indexName "k8sevents" (mkTime 2024 3 7)
     = indexName "k8sevents" (mkTime 2024 3 7)
  /\ "k8sevents" = "k8sevents" /\ mkTime 2024 3 7 = mkTime 2024 3 7.
Proof.
  assert (H : calendar_date (mkTime 2024 3 7))
    by (unfold calendar_date; simpl; lia).
  split; [assumption |]. split; [reflexivity |].
  exact (indexName_tells_base_and_day_apart
           "k8sevents" (mkTime 2024 3 7) "k8sevents" (mkTime 2024 3 7)
           H H eq_refl).
Defined.

Lemma indexName_ends_in_ten_characters_witness :
  calendar_date (mkTime 2024 3 7)
  /\ indexName "k8sevents" (mkTime 2024 3 7) = "k8sevents-07-03-2024"
  /\ String.length (indexName "k8sevents" (mkTime 2024 3 7)) = 20%nat.
Proof.
  assert (H : calendar_date (mkTime 2024 3 7))
    by (unfold calendar_date; simpl; lia).
  split; [assumption |].
  exact (indexName_ends_in_ten_characters "k8sevents" (mkTime 2024 3 7) H).
Defined.

(** The store of [Fake] is one the notifier can count on. *)
Lemma Fake_store_keeps_indices : store_keeps_indices Fake.Do.
Proof.
  intros name c r b reply b' T E c' y b'' E'.
  assert (K : b' = b
              \/ exists n, b' = Fake.mkStore (n :: Fake.indices b)
                                  (Fake.broken b)).
  { unfold Fake.Do in E.
    destruct (existsb _ (Fake.broken b)); cbn in E;
      [injection E as _ <-; left; reflexivity |].
    destruct r; cbn in E; injection E as _ <-;
      first [left; reflexivity | right; eexists; reflexivity]. }
  destruct K as [-> | [n ->]]; [exact (T c' y b'' E') |].
  specialize (T c' (existsb (String.eqb name) (Fake.indices b)) b).
  unfold Fake.Do in T, E'; cbn in T, E'.
  destruct (existsb _ (Fake.broken b)); [discriminate |].
  injection E' as <- _.
  rewrite (T eq_refl); apply orb_true_r.
Qed.

Lemma Fake_create_makes_index : create_makes_index Fake.Do.
Proof.
  intros name c m b x b' E c' y b'' E'.
  unfold Fake.Do in E; cbn in E.
  destruct (existsb _ (Fake.broken b)); [discriminate |].
  injection E as _ <-.
  unfold Fake.Do in E'; cbn in E'.
  match type of E' with
  | context [if ?c then _ else _] => destruct c; [discriminate |]
  end.
  injection E' as <- _.
  rewrite String.eqb_refl; reflexivity.
Qed.

Lemma SendEvent_does_not_create_what_is_there_witness :
  index_there Fake.Do "k8sevents-07-03-2024" Fake.existing
  /\ count is_create
       (requests (Fake.world Fake.steady Fake.existing)
          (Fake.send Fake.sink Fake.an_event
             (Fake.world Fake.steady Fake.existing)))
     = 0%nat.
Proof.
  assert (T : index_there Fake.Do "k8sevents-07-03-2024" Fake.existing)
    by (intros c y b' E; vm_compute in E; injection E as <- _; reflexivity).
  split; [assumption |].
  exact (proj1 (SendEvent_does_not_create_what_is_there
                  _ Fake.Error _ _ Fake.Sprintf_v _ Fake.Do
                  Fake.sink Fake.an_event
                  (Fake.world Fake.steady Fake.existing)
                  Fake_store_keeps_indices T)).
Defined.

Lemma SendEvent_creates_for_the_next_call_witness :
  (exists n m x,
     In (CreateIndex n m, Done x)
        (issued (Fake.world Fake.steady Fake.fresh)
           (Fake.send Fake.sink Fake.an_event
              (Fake.world Fake.steady Fake.fresh))))
  /\ count is_create
       (requests
          (after
             (Fake.send Fake.sink Fake.an_event
                (Fake.world Fake.steady Fake.fresh)))
          (Fake.send Fake.sink Fake.an_event
             (after
                (Fake.send Fake.sink Fake.an_event
                   (Fake.world Fake.steady Fake.fresh)))))
     = 0%nat.
Proof.
  assert (H : exists n m x,
            In (CreateIndex n m, Done x)
               (issued (Fake.world Fake.steady Fake.fresh)
                  (Fake.send Fake.sink Fake.an_event
                     (Fake.world Fake.steady Fake.fresh))))
    by (do 3 eexists; vm_compute; right; left; reflexivity).
  split; [assumption |].
  exact (SendEvent_creates_for_the_next_call
           _ Fake.Error _ _ Fake.Sprintf_v _ Fake.Do
           Fake.sink Fake.an_event Fake.an_event
           (Fake.world Fake.steady Fake.fresh) "k8sevents-07-03-2024"
           Fake_store_keeps_indices Fake_create_makes_index
           (fun i => eq_refl) H).
Defined.
